(** * Plant monitor: the device and its update routine

    A shallow embedding of [custom_components/plant/plant.py] (class
    [PlantDevice]) and of the websocket handler of
    [custom_components/plant/__init__.py], with the properties of the
    threshold evaluation proved about it.

    Python's [float] is an IEEE 754 binary64 number: it is Rocq's primitive
    [float], and [<] and [>] are [PrimFloat.ltb].  A Python value that the
    code only reads is a [pyval]; an exception is a [Raise] outcome that keeps
    the attributes assigned before it was raised. *)

From Stdlib Require Import ZArith Floats String List Bool.
From stdpp Require Import base option strings gmap.
Import ListNotations.

Local Open Scope string_scope.

(** ** Python values and exceptions *)

Inductive pyval : Type :=
  | PyNone
  | PyStr (s : string)
  | PyFloat (x : float).

Inductive exn : Type :=
  | ValueError
  | TypeError
  | AttributeError
  | KeyError.

Inductive result (A : Type) : Type :=
  | Ok (a : A)
  | Raise (e : exn).

Arguments Ok {A} a.
Arguments Raise {A} e.

(** [v != c] for a value [v] and a string constant [c]. *)
Definition py_ne_str (v : pyval) (c : string) : bool :=
  match v with
  | PyStr s => negb (String.eqb s c)
  | _ => true
  end.

Definition is_not_None (v : pyval) : bool :=
  match v with
  | PyNone => false
  | _ => true
  end.

(** Truth value of a Python object ([x or y], [if x and ...]). *)
Definition truthy (v : pyval) : bool :=
  match v with
  | PyNone => false
  | PyStr s => negb (String.eqb s "")
  | PyFloat x => negb (PrimFloat.eqb x 0%float)
  end.

(** [a > b] on floats. *)
Definition gtb (a b : float) : bool := PrimFloat.ltb b a.

(** ** Constants of the host ([homeassistant.const]) and of the component *)

Definition STATE_UNKNOWN : string := "unknown".
Definition STATE_UNAVAILABLE : string := "unavailable".

(** The values the device assigns to its own state and to the per-metric
    statuses: [STATE_OK], [STATE_PROBLEM], [STATE_LOW], [STATE_HIGH] and
    [STATE_UNKNOWN] (as an assigned value). *)
Inductive state : Type :=
  | STATE_OK
  | STATE_PROBLEM
  | STATE_LOW
  | STATE_HIGH
  | UNKNOWN.

(** The six monitored attributes, named by their [ATTR_*] constants. *)
Inductive metric : Type :=
  | ATTR_MOISTURE
  | ATTR_CONDUCTIVITY
  | ATTR_TEMPERATURE
  | ATTR_HUMIDITY
  | ATTR_ILLUMINANCE
  | ATTR_DLI.

#[global] Instance state_eq_dec : EqDecision state.
Proof. solve_decision. Defined.

#[global] Instance metric_eq_dec : EqDecision metric.
Proof. solve_decision. Defined.

Definition all_metrics : list metric :=
  [ATTR_MOISTURE; ATTR_CONDUCTIVITY; ATTR_TEMPERATURE; ATTR_HUMIDITY;
   ATTR_ILLUMINANCE; ATTR_DLI].

(** ** Entities and the host *)

(** An entity of the host (threshold number, meter sensor, integral sensor),
    with the attributes the device reads from it. *)
Module Entity.
Record t : Type := mk {
  entity_id : string;
  state : pyval;
  native_value : pyval;
  icon : option string;
  unit_of_measurement : option string;
  extra_state_attributes : gmap string pyval
}.
End Entity.

(** [hass]: the state machine ([hass.states], entity id to state string) and
    the device registry, which hands out one device id per unique id
    ([async_get_or_create] followed by [async_get_device]). *)
Record HomeAssistant : Type := {
  states : gmap string string;
  device_registry : string -> string
}.

(** [getattr(hass.states.get(entity_id), "state", None)] *)
Definition states_get_state (hass : HomeAssistant) (entity_id : string) : pyval :=
  match states hass !! entity_id with
  | Some s => PyStr s
  | None => PyNone
  end.

(** ** The configuration entry *)

(** [config.options]: a key that is absent is [None] here. *)
Record ConfigOptions : Type := {
  OPT_ENTITY_PICTURE : option (option string);
  OPT_SPECIES : option (option string);
  OPT_DISPLAY_PID : option (option string);
  FLOW_ILLUMINANCE_TRIGGER : option bool;
  FLOW_HUMIDITY_TRIGGER : option bool;
  FLOW_TEMPERATURE_TRIGGER : option bool;
  FLOW_DLI_TRIGGER : option bool;
  FLOW_MOISTURE_TRIGGER : option bool;
  FLOW_CONDUCTIVITY_TRIGGER : option bool
}.

(** [config.data[FLOW_PLANT_INFO]] *)
Record PlantInfo : Type := {
  ATTR_NAME : string;
  ATTR_ENTITY_PICTURE : option string;
  ATTR_SPECIES : option string;
  OPB_DISPLAY_PID : option string
}.

Record ConfigEntry : Type := {
  entry_id : string;
  data : PlantInfo;
  options : ConfigOptions
}.

(** [d.get(key, default)] *)
Definition dict_get {A : Type} (entry : option A) (default : A) : A :=
  match entry with
  | Some v => v
  | None => default
  end.

(** ** The device *)

(** The attributes of [PlantDevice], grouped as [__init__] groups them.
    The attributes that no method reads or assigns after [__init__]
    ([_hass], [_attr_name], [_config_entries], [_data_source],
    [_attr_unique_id], [_check_days], [micro_dli]) are left out; the host is
    an argument of the methods that read it, and the unique id is the
    [entry_id] of the configuration entry. *)
Record Thresholds : Type := {
  max_moisture : option Entity.t;
  min_moisture : option Entity.t;
  max_temperature : option Entity.t;
  min_temperature : option Entity.t;
  max_conductivity : option Entity.t;
  min_conductivity : option Entity.t;
  max_illuminance : option Entity.t;
  min_illuminance : option Entity.t;
  max_humidity : option Entity.t;
  min_humidity : option Entity.t;
  max_dli : option Entity.t;
  min_dli : option Entity.t
}.

Record Sensors : Type := {
  sensor_moisture : option Entity.t;
  sensor_temperature : option Entity.t;
  sensor_conductivity : option Entity.t;
  sensor_illuminance : option Entity.t;
  sensor_humidity : option Entity.t
}.

Record Statuses : Type := {
  conductivity_status : option state;
  illuminance_status : option state;
  moisture_status : option state;
  temperature_status : option state;
  humidity_status : option state;
  dli_status : option state
}.

Record PlantDevice : Type := {
  _config : ConfigEntry;
  entity_id : string;
  _attr_entity_picture : option string;
  species : option string;
  display_species : option string;
  plant_complete : bool;
  _device_id : option string;
  thresholds : Thresholds;
  sensors : Sensors;
  dli : option Entity.t;
  ppfd : option Entity.t;
  total_integral : option Entity.t;
  statuses : Statuses;
  _attr_state : state
}.

(** [__init__]: the entity id is generated by the host from the name; the
    state is the host's default for an entity, [STATE_UNKNOWN]. *)
Definition __init__ (config : ConfigEntry) (generated_entity_id : string)
  : PlantDevice :=
  let species :=
    dict_get (OPT_SPECIES (options config)) (ATTR_SPECIES (data config)) in
  {| _config := config;
     entity_id := generated_entity_id;
     _attr_entity_picture :=
       dict_get (OPT_ENTITY_PICTURE (options config))
                (ATTR_ENTITY_PICTURE (data config));
     species := species;
     display_species :=
       match dict_get (OPT_DISPLAY_PID (options config))
                      (OPB_DISPLAY_PID (data config)) with
       | Some s => if String.eqb s "" then species else Some s
       | None => species
       end;
     plant_complete := false;
     _device_id := None;
     thresholds :=
       {| max_moisture := None; min_moisture := None;
          max_temperature := None; min_temperature := None;
          max_conductivity := None; min_conductivity := None;
          max_illuminance := None; min_illuminance := None;
          max_humidity := None; min_humidity := None;
          max_dli := None; min_dli := None |};
     sensors :=
       {| sensor_moisture := None; sensor_temperature := None;
          sensor_conductivity := None; sensor_illuminance := None;
          sensor_humidity := None |};
     dli := None;
     ppfd := None;
     total_integral := None;
     statuses :=
       {| conductivity_status := None; illuminance_status := None;
          moisture_status := None; temperature_status := None;
          humidity_status := None; dli_status := None |};
     _attr_state := UNKNOWN |}.

(** The [*_trigger] properties: [self._config.options.get(FLOW_*_TRIGGER, True)]. *)
Definition trigger (m : metric) (self : PlantDevice) : bool :=
  let o := options (_config self) in
  match m with
  | ATTR_ILLUMINANCE => dict_get (FLOW_ILLUMINANCE_TRIGGER o) true
  | ATTR_HUMIDITY => dict_get (FLOW_HUMIDITY_TRIGGER o) true
  | ATTR_TEMPERATURE => dict_get (FLOW_TEMPERATURE_TRIGGER o) true
  | ATTR_DLI => dict_get (FLOW_DLI_TRIGGER o) true
  | ATTR_MOISTURE => dict_get (FLOW_MOISTURE_TRIGGER o) true
  | ATTR_CONDUCTIVITY => dict_get (FLOW_CONDUCTIVITY_TRIGGER o) true
  end.

(** The attribute [<metric>_status], [sensor_<metric>], [min_<metric>] and
    [max_<metric>] of a metric. *)
Definition get_status (m : metric) (self : PlantDevice) : option state :=
  let s := statuses self in
  match m with
  | ATTR_MOISTURE => moisture_status s
  | ATTR_CONDUCTIVITY => conductivity_status s
  | ATTR_TEMPERATURE => temperature_status s
  | ATTR_HUMIDITY => humidity_status s
  | ATTR_ILLUMINANCE => illuminance_status s
  | ATTR_DLI => dli_status s
  end.

Definition sensor_of (m : metric) (self : PlantDevice) : option Entity.t :=
  let s := sensors self in
  match m with
  | ATTR_MOISTURE => sensor_moisture s
  | ATTR_CONDUCTIVITY => sensor_conductivity s
  | ATTR_TEMPERATURE => sensor_temperature s
  | ATTR_HUMIDITY => sensor_humidity s
  | ATTR_ILLUMINANCE => sensor_illuminance s
  | ATTR_DLI => None
  end.

Definition min_of (m : metric) (self : PlantDevice) : option Entity.t :=
  let t := thresholds self in
  match m with
  | ATTR_MOISTURE => min_moisture t
  | ATTR_CONDUCTIVITY => min_conductivity t
  | ATTR_TEMPERATURE => min_temperature t
  | ATTR_HUMIDITY => min_humidity t
  | ATTR_ILLUMINANCE => min_illuminance t
  | ATTR_DLI => min_dli t
  end.

Definition max_of (m : metric) (self : PlantDevice) : option Entity.t :=
  let t := thresholds self in
  match m with
  | ATTR_MOISTURE => max_moisture t
  | ATTR_CONDUCTIVITY => max_conductivity t
  | ATTR_TEMPERATURE => max_temperature t
  | ATTR_HUMIDITY => max_humidity t
  | ATTR_ILLUMINANCE => max_illuminance t
  | ATTR_DLI => max_dli t
  end.

(** Assignments to attributes of [self]. *)
Definition with_statuses (s : Statuses) (self : PlantDevice) : PlantDevice :=
  {| _config := _config self;
     entity_id := entity_id self;
     _attr_entity_picture := _attr_entity_picture self;
     species := species self;
     display_species := display_species self;
     plant_complete := plant_complete self;
     _device_id := _device_id self;
     thresholds := thresholds self;
     sensors := sensors self;
     dli := dli self;
     ppfd := ppfd self;
     total_integral := total_integral self;
     statuses := s;
     _attr_state := _attr_state self |}.

Definition assign_status (m : metric) (v : option state) (self : PlantDevice)
  : PlantDevice :=
  let s := statuses self in
  let upd (k : metric) (old : option state) :=
    if decide (k = m) then v else old in
  with_statuses
    {| conductivity_status := upd ATTR_CONDUCTIVITY (conductivity_status s);
       illuminance_status := upd ATTR_ILLUMINANCE (illuminance_status s);
       moisture_status := upd ATTR_MOISTURE (moisture_status s);
       temperature_status := upd ATTR_TEMPERATURE (temperature_status s);
       humidity_status := upd ATTR_HUMIDITY (humidity_status s);
       dli_status := upd ATTR_DLI (dli_status s) |}
    self.

Definition assign_attr_state (v : state) (self : PlantDevice) : PlantDevice :=
  {| _config := _config self;
     entity_id := entity_id self;
     _attr_entity_picture := _attr_entity_picture self;
     species := species self;
     display_species := display_species self;
     plant_complete := plant_complete self;
     _device_id := _device_id self;
     thresholds := thresholds self;
     sensors := sensors self;
     dli := dli self;
     ppfd := ppfd self;
     total_integral := total_integral self;
     statuses := statuses self;
     _attr_state := v |}.

Definition assign_device_id (v : option string) (self : PlantDevice)
  : PlantDevice :=
  {| _config := _config self;
     entity_id := entity_id self;
     _attr_entity_picture := _attr_entity_picture self;
     species := species self;
     display_species := display_species self;
     plant_complete := plant_complete self;
     _device_id := v;
     thresholds := thresholds self;
     sensors := sensors self;
     dli := dli self;
     ppfd := ppfd self;
     total_integral := total_integral self;
     statuses := statuses self;
     _attr_state := _attr_state self |}.

(** ** Running a method: attributes of [self] and exceptions *)

(** A computation on [self]: an outcome and the attributes as it leaves
    them.  An exception does not undo the assignments made before it. *)
Definition M (A : Type) : Type := PlantDevice -> result A * PlantDevice.

#[global] Instance M_ret : MRet M := fun A a self => (Ok a, self).

#[global] Instance M_bind : MBind M := fun A B f c self =>
  match c self with
  | (Ok a, self') => f a self'
  | (Raise e, self') => (Raise e, self')
  end.

Definition raise {A : Type} (e : exn) : M A := fun self => (Raise e, self).

Definition get_self : M PlantDevice := fun self => (Ok self, self).

Definition assign (f : PlantDevice -> PlantDevice) : M unit :=
  fun self => (Ok tt, f self).

(** A pure step that may raise. *)
Definition lift {A : Type} (r : result A) : M A := fun self => (r, self).

(** [entity.state]: an [AttributeError] when the attribute holding the entity
    is still [None]. *)
Definition dot_state (e : option Entity.t) : result pyval :=
  match e with
  | Some ent => Ok (Entity.state ent)
  | None => Raise AttributeError
  end.

(** [d[key]] on the attribute dictionary of an entity. *)
Definition getitem (d : gmap string pyval) (key : string) : result pyval :=
  match d !! key with
  | Some v => Ok v
  | None => Raise KeyError
  end.

(** The reading is neither [None] nor one of the host's two sentinels. *)
Definition is_known (v : pyval) : bool :=
  is_not_None v && py_ne_str v STATE_UNKNOWN && py_ne_str v STATE_UNAVAILABLE.

Section Update.

(** Python's built-in [float] on a string: [None] is its [ValueError]. *)
Variable str_to_float : string -> option float.

Variable hass : HomeAssistant.

(** [float(v)] *)
Definition py_float (v : pyval) : result float :=
  match v with
  | PyNone => Raise TypeError
  | PyStr s =>
      match str_to_float s with
      | Some x => Ok x
      | None => Raise ValueError
      end
  | PyFloat x => Ok x
  end.

(** The local variables [new_state] and [known_state] of [update]. *)
Record locals : Type := {
  new_state : state;
  known_state : bool
}.

Definition set_known (l : locals) : locals :=
  {| new_state := new_state l; known_state := true |}.

(** [if self.<metric>_trigger: new_state = STATE_PROBLEM] *)
Definition flag_problem (m : metric) (self : PlantDevice) (l : locals)
  : locals :=
  if trigger m self
  then {| new_state := STATE_PROBLEM; known_state := known_state l |}
  else l.

(** [float(value) < float(self.min_<metric>.state)], left to right. *)
Definition below_min (m : metric) (value : pyval) : M bool :=
  self ← get_self;
  v ← lift (py_float value);
  lo ← lift (dot_state (min_of m self));
  lo ← lift (py_float lo);
  mret (PrimFloat.ltb v lo).

(** [float(value) > float(self.max_<metric>.state)], left to right. *)
Definition above_max (m : metric) (value : pyval) : M bool :=
  self ← get_self;
  v ← lift (py_float value);
  hi ← lift (dot_state (max_of m self));
  hi ← lift (py_float hi);
  mret (gtb v hi).

(** The block of [update] for moisture, conductivity, temperature and
    humidity: the four are the same code on the attributes of their
    metric. *)
Definition check_min_max (m : metric) (l : locals) : M locals :=
  self ← get_self;
  match sensor_of m self with
  | None => mret l
  | Some sensor =>
      let value := states_get_state hass (Entity.entity_id sensor) in
      if is_known value then
        let l := set_known l in
        low ← below_min m value;
        if low : bool then
          assign (assign_status m (Some STATE_LOW));;
          mret (flag_problem m self l)
        else
          high ← above_max m value;
          if high : bool then
            assign (assign_status m (Some STATE_HIGH));;
            mret (flag_problem m self l)
          else
            assign (assign_status m (Some STATE_OK));;
            mret l
      else mret l
  end.

(** The block for illuminance: only the maximum is checked. *)
Definition check_illuminance (l : locals) : M locals :=
  self ← get_self;
  match sensor_illuminance (sensors self) with
  | None => mret l
  | Some sensor =>
      let value := states_get_state hass (Entity.entity_id sensor) in
      if is_known value then
        let l := set_known l in
        high ← above_max ATTR_ILLUMINANCE value;
        if high : bool then
          assign (assign_status ATTR_ILLUMINANCE (Some STATE_HIGH));;
          mret (flag_problem ATTR_ILLUMINANCE self l)
        else
          assign (assign_status ATTR_ILLUMINANCE (Some STATE_OK));;
          mret l
      else mret l
  end.

(** [self.dli.extra_state_attributes["last_period"]] *)
Definition last_period (d : Entity.t) : result pyval :=
  getitem (Entity.extra_state_attributes d) "last_period".

(** [float(self.dli.extra_state_attributes["last_period"]) > 0] *)
Definition last_period_positive (d : Entity.t) : M bool :=
  lp ← lift (last_period d);
  lp ← lift (py_float lp);
  mret (gtb lp 0%float).

(** The guard of the block for the daily light integral, on the entity
    held by [self.dli]. *)
Definition dli_guard (d : Entity.t) : bool :=
  py_ne_str (Entity.native_value d) STATE_UNKNOWN
  && py_ne_str (Entity.native_value d) STATE_UNAVAILABLE
  && is_not_None (Entity.state d).

(** The block for the daily light integral: the value of the last period
    against both bounds, each test guarded by [> 0]. *)
Definition check_dli (l : locals) : M locals :=
  self ← get_self;
  match dli self with
  | None => mret l
  | Some d =>
      if dli_guard d then
        let l := set_known l in
        pos ← last_period_positive d;
        low ←
          (if pos : bool
           then lp ← lift (last_period d); below_min ATTR_DLI lp
           else mret false);
        if low : bool then
          assign (assign_status ATTR_DLI (Some STATE_LOW));;
          mret (flag_problem ATTR_DLI self l)
        else
          pos ← last_period_positive d;
          high ←
            (if pos : bool
             then lp ← lift (last_period d); above_max ATTR_DLI lp
             else mret false);
          if high : bool then
            assign (assign_status ATTR_DLI (Some STATE_HIGH));;
            mret (flag_problem ATTR_DLI self l)
          else
            assign (assign_status ATTR_DLI (Some STATE_OK));;
            mret l
      else mret l
  end.

(** [update_registry]: registers the device with the host and, the first
    time, remembers the id the registry gave it. *)
Definition update_registry : M unit :=
  self ← get_self;
  match _device_id self with
  | None =>
      assign (assign_device_id
                (Some (device_registry hass (entry_id (_config self)))))
  | Some _ => mret tt
  end.

(** [update]: run on every update of the entities. *)
Definition update : M unit :=
  let l := {| new_state := STATE_OK; known_state := false |} in
  l ← check_min_max ATTR_MOISTURE l;
  l ← check_min_max ATTR_CONDUCTIVITY l;
  l ← check_min_max ATTR_TEMPERATURE l;
  l ← check_min_max ATTR_HUMIDITY l;
  l ← check_illuminance l;
  l ← check_dli l;
  let new_state := if known_state l then new_state l else UNKNOWN in
  assign (assign_attr_state new_state);;
  update_registry.

End Update.

(** ** The other methods of [PlantDevice] *)

Definition with_options (o : ConfigOptions) (c : ConfigEntry) : ConfigEntry :=
  {| entry_id := entry_id c; data := data c; options := o |}.

(** [add_image]: the picture, also written to the options of the entry. *)
Definition add_image (image_url : option string) (self : PlantDevice)
  : PlantDevice :=
  let o := options (_config self) in
  let o' :=
    {| OPT_ENTITY_PICTURE := Some image_url;
       OPT_SPECIES := OPT_SPECIES o;
       OPT_DISPLAY_PID := OPT_DISPLAY_PID o;
       FLOW_ILLUMINANCE_TRIGGER := FLOW_ILLUMINANCE_TRIGGER o;
       FLOW_HUMIDITY_TRIGGER := FLOW_HUMIDITY_TRIGGER o;
       FLOW_TEMPERATURE_TRIGGER := FLOW_TEMPERATURE_TRIGGER o;
       FLOW_DLI_TRIGGER := FLOW_DLI_TRIGGER o;
       FLOW_MOISTURE_TRIGGER := FLOW_MOISTURE_TRIGGER o;
       FLOW_CONDUCTIVITY_TRIGGER := FLOW_CONDUCTIVITY_TRIGGER o |} in
  {| _config := with_options o' (_config self);
     entity_id := entity_id self;
     _attr_entity_picture := image_url;
     species := species self;
     display_species := display_species self;
     plant_complete := plant_complete self;
     _device_id := _device_id self;
     thresholds := thresholds self;
     sensors := sensors self;
     dli := dli self;
     ppfd := ppfd self;
     total_integral := total_integral self;
     statuses := statuses self;
     _attr_state := _attr_state self |}.

Definition add_species (new_species : option string) (self : PlantDevice)
  : PlantDevice :=
  {| _config := _config self;
     entity_id := entity_id self;
     _attr_entity_picture := _attr_entity_picture self;
     species := new_species;
     display_species := display_species self;
     plant_complete := plant_complete self;
     _device_id := _device_id self;
     thresholds := thresholds self;
     sensors := sensors self;
     dli := dli self;
     ppfd := ppfd self;
     total_integral := total_integral self;
     statuses := statuses self;
     _attr_state := _attr_state self |}.

(** [add_thresholds]: the twelve arguments, each an entity or [None]. *)
Definition add_thresholds (new_thresholds : Thresholds) (self : PlantDevice)
  : PlantDevice :=
  {| _config := _config self;
     entity_id := entity_id self;
     _attr_entity_picture := _attr_entity_picture self;
     species := species self;
     display_species := display_species self;
     plant_complete := plant_complete self;
     _device_id := _device_id self;
     thresholds := new_thresholds;
     sensors := sensors self;
     dli := dli self;
     ppfd := ppfd self;
     total_integral := total_integral self;
     statuses := statuses self;
     _attr_state := _attr_state self |}.

(** [add_sensors]: the five arguments, each an entity or [None]. *)
Definition add_sensors (new_sensors : Sensors) (self : PlantDevice)
  : PlantDevice :=
  {| _config := _config self;
     entity_id := entity_id self;
     _attr_entity_picture := _attr_entity_picture self;
     species := species self;
     display_species := display_species self;
     plant_complete := plant_complete self;
     _device_id := _device_id self;
     thresholds := thresholds self;
     sensors := new_sensors;
     dli := dli self;
     ppfd := ppfd self;
     total_integral := total_integral self;
     statuses := statuses self;
     _attr_state := _attr_state self |}.

(** [add_dli]: stores the sensor and marks the plant complete. *)
Definition add_dli (new_dli : option Entity.t) (self : PlantDevice)
  : PlantDevice :=
  {| _config := _config self;
     entity_id := entity_id self;
     _attr_entity_picture := _attr_entity_picture self;
     species := species self;
     display_species := display_species self;
     plant_complete := true;
     _device_id := _device_id self;
     thresholds := thresholds self;
     sensors := sensors self;
     dli := new_dli;
     ppfd := ppfd self;
     total_integral := total_integral self;
     statuses := statuses self;
     _attr_state := _attr_state self |}.

Definition add_calculations (new_ppfd new_total_integral : option Entity.t)
  (self : PlantDevice) : PlantDevice :=
  {| _config := _config self;
     entity_id := entity_id self;
     _attr_entity_picture := _attr_entity_picture self;
     species := species self;
     display_species := display_species self;
     plant_complete := plant_complete self;
     _device_id := _device_id self;
     thresholds := thresholds self;
     sensors := sensors self;
     dli := dli self;
     ppfd := new_ppfd;
     total_integral := new_total_integral;
     statuses := statuses self;
     _attr_state := _attr_state self |}.

(** ** The two read-only surfaces *)

(** The keys and values of the dictionary of [extra_state_attributes]. *)
Inductive attribute_key : Type :=
  | KEY_SPECIES
  | KEY_STATUS (m : metric)
  | KEY_SPECIES_ORIGINAL.

Inductive attribute_value : Type :=
  | AttrText (s : option string)
  | AttrStatus (s : option state).

(** [extra_state_attributes]: the empty dictionary is the empty list. *)
Definition extra_state_attributes (self : PlantDevice)
  : list (attribute_key * attribute_value) :=
  if negb (plant_complete self) then []
  else
    [ (KEY_SPECIES, AttrText (display_species self));
      (KEY_STATUS ATTR_MOISTURE, AttrStatus (get_status ATTR_MOISTURE self));
      (KEY_STATUS ATTR_TEMPERATURE, AttrStatus (get_status ATTR_TEMPERATURE self));
      (KEY_STATUS ATTR_CONDUCTIVITY, AttrStatus (get_status ATTR_CONDUCTIVITY self));
      (KEY_STATUS ATTR_ILLUMINANCE, AttrStatus (get_status ATTR_ILLUMINANCE self));
      (KEY_STATUS ATTR_HUMIDITY, AttrStatus (get_status ATTR_HUMIDITY self));
      (KEY_STATUS ATTR_DLI, AttrStatus (get_status ATTR_DLI self));
      (KEY_SPECIES_ORIGINAL, AttrText (species self)) ].

(** One entry of the websocket response. *)
Record MetricInfo : Type := {
  ATTR_MAX : pyval;
  ATTR_MIN : pyval;
  ATTR_CURRENT : pyval;
  ATTR_ICON : option string;
  ATTR_UNIT_OF_MEASUREMENT : option string;
  ATTR_SENSOR : string
}.

(** [x or STATE_UNAVAILABLE] *)
Definition or_unavailable (x : pyval) : pyval :=
  if truthy x then x else PyStr STATE_UNAVAILABLE.

(** An attribute of an entity held by an attribute of [self]: an
    [AttributeError] when that attribute is still [None]. *)
Definition dot {A : Type} (e : option Entity.t) (field : Entity.t -> A)
  : result A :=
  match e with
  | Some ent => Ok (field ent)
  | None => Raise AttributeError
  end.

#[global] Instance result_ret : MRet result := fun A a => Ok a.

#[global] Instance result_bind : MBind result := fun A B k r =>
  match r with
  | Ok a => k a
  | Raise e => Raise e
  end.

Section Websocket.

Variable str_to_float : string -> option float.

(** The entry of a metric that has a meter sensor. *)
Definition meter_info (m : metric) (self : PlantDevice) : result MetricInfo :=
  hi ← dot (max_of m self) Entity.state;
  lo ← dot (min_of m self) Entity.state;
  cur ← dot (sensor_of m self) Entity.state;
  ico ← dot (sensor_of m self) Entity.icon;
  unit ← dot (sensor_of m self) Entity.unit_of_measurement;
  id ← dot (sensor_of m self) Entity.entity_id;
  Ok {| ATTR_MAX := hi; ATTR_MIN := lo; ATTR_CURRENT := or_unavailable cur;
        ATTR_ICON := ico; ATTR_UNIT_OF_MEASUREMENT := unit;
        ATTR_SENSOR := id |}.

(** The entry of the daily light integral, with the current value filled
    in afterwards when the sensor has one. *)
Definition dli_info (self : PlantDevice) : result MetricInfo :=
  hi ← dot (max_of ATTR_DLI self) Entity.state;
  lo ← dot (min_of ATTR_DLI self) Entity.state;
  ico ← dot (dli self) Entity.icon;
  unit ← dot (dli self) Entity.unit_of_measurement;
  id ← dot (dli self) Entity.entity_id;
  st ← dot (dli self) Entity.state;
  cur ← (if truthy st && py_ne_str st STATE_UNKNOWN
         then x ← py_float str_to_float st; Ok (PyFloat x)
         else Ok (PyStr STATE_UNAVAILABLE));
  Ok {| ATTR_MAX := hi; ATTR_MIN := lo; ATTR_CURRENT := cur;
        ATTR_ICON := ico; ATTR_UNIT_OF_MEASUREMENT := unit;
        ATTR_SENSOR := id |}.

(** [websocket_info]: the empty dictionary is the empty list. *)
Definition websocket_info (self : PlantDevice)
  : result (list (metric * MetricInfo)) :=
  if negb (plant_complete self) then Ok []
  else
    temperature ← meter_info ATTR_TEMPERATURE self;
    illuminance ← meter_info ATTR_ILLUMINANCE self;
    moisture ← meter_info ATTR_MOISTURE self;
    conductivity ← meter_info ATTR_CONDUCTIVITY self;
    humidity ← meter_info ATTR_HUMIDITY self;
    dli_entry ← dli_info self;
    Ok [ (ATTR_TEMPERATURE, temperature); (ATTR_ILLUMINANCE, illuminance);
         (ATTR_MOISTURE, moisture); (ATTR_CONDUCTIVITY, conductivity);
         (ATTR_HUMIDITY, humidity); (ATTR_DLI, dli_entry) ].

(** What the websocket handler does with the connection. *)
Inductive ws_reply : Type :=
  | send_result (response : list (metric * MetricInfo))
  | send_error (code : string)
  | logged_warning
  | uncaught (e : exn).

(** The loop of [ws_get_info] over [hass.data[DOMAIN]]: an entry without a
    plant is skipped, the first plant with the entity id answers. *)
Fixpoint ws_find (entries : list (string * option PlantDevice))
  (msg_entity_id : string) : ws_reply :=
  match entries with
  | [] => send_error "entity_not_found"
  | (_, None) :: rest => ws_find rest msg_entity_id
  | (_, Some plant_entity) :: rest =>
      if String.eqb (entity_id plant_entity) msg_entity_id then
        match websocket_info plant_entity with
        | Ok response => send_result response
        | Raise ValueError => logged_warning
        | Raise e => uncaught e
        end
      else ws_find rest msg_entity_id
  end.

(** [ws_get_info]: [domain_data] is [hass.data.get(DOMAIN)]. *)
Definition ws_get_info
  (domain_data : option (list (string * option PlantDevice)))
  (msg_entity_id : string) : ws_reply :=
  match domain_data with
  | None => send_error "domain_not_found"
  | Some entries => ws_find entries msg_entity_id
  end.

End Websocket.


(** ** Calls on a device *)

(** The methods that assign attributes of a device, as calls with their
    arguments.  [update] and [update_registry] read the host. *)
Inductive call : Type :=
  | Call_add_image (image_url : option string)
  | Call_add_species (new_species : option string)
  | Call_add_thresholds (new_thresholds : Thresholds)
  | Call_add_sensors (new_sensors : Sensors)
  | Call_add_dli (new_dli : option Entity.t)
  | Call_add_calculations (new_ppfd new_total_integral : option Entity.t)
  | Call_update (hass : HomeAssistant)
  | Call_update_registry (hass : HomeAssistant).

(** The device after a call; an exception leaves it as it was when raised. *)
Definition run_call (str_to_float : string -> option float) (c : call)
  (self : PlantDevice) : PlantDevice :=
  match c with
  | Call_add_image image_url => add_image image_url self
  | Call_add_species new_species => add_species new_species self
  | Call_add_thresholds new_thresholds => add_thresholds new_thresholds self
  | Call_add_sensors new_sensors => add_sensors new_sensors self
  | Call_add_dli new_dli => add_dli new_dli self
  | Call_add_calculations new_ppfd new_total_integral =>
      add_calculations new_ppfd new_total_integral self
  | Call_update hass => snd (update str_to_float hass self)
  | Call_update_registry hass => snd (update_registry hass self)
  end.

Definition run_calls (str_to_float : string -> option float)
  (calls : list call) (self : PlantDevice) : PlantDevice :=
  fold_left (fun d c => run_call str_to_float c d) calls self.

(** ** What one pass does, metric by metric *)

(** The block of [update] that evaluates a metric. *)
Definition block_of (str_to_float : string -> option float)
  (hass : HomeAssistant) (m : metric) : locals -> M locals :=
  match m with
  | ATTR_ILLUMINANCE => check_illuminance str_to_float hass
  | ATTR_DLI => check_dli str_to_float
  | _ => check_min_max str_to_float hass m
  end.

(** The blocks of the metrics of a list, one after the other. *)
Fixpoint blocks (str_to_float : string -> option float)
  (hass : HomeAssistant) (ms : list metric) (l : locals) : M locals :=
  match ms with
  | [] => mret l
  | m :: rest =>
      l' ← block_of str_to_float hass m l;
      blocks str_to_float hass rest l'
  end.

(** The metric has a reading this pass: the guard of its block holds, so the
    block sets [known_state]. *)
Definition contributes (hass : HomeAssistant) (self : PlantDevice)
  (m : metric) : bool :=
  match m with
  | ATTR_DLI =>
      match dli self with
      | Some d => dli_guard d
      | None => false
      end
  | _ =>
      match sensor_of m self with
      | Some sensor => is_known (states_get_state hass (Entity.entity_id sensor))
      | None => false
      end
  end.

(** The threshold held by an attribute, as a number. *)
Definition threshold (str_to_float : string -> option float)
  (e : option Entity.t) : result float :=
  v ← dot_state e; py_float str_to_float v.

(** The status a reading gets against both bounds; the maximum is read only
    when the reading is not below the minimum. *)
Definition compare_min_max (str_to_float : string -> option float)
  (value : pyval) (emin emax : option Entity.t) : result state :=
  v ← py_float str_to_float value;
  lo ← threshold str_to_float emin;
  if PrimFloat.ltb v lo then Ok STATE_LOW
  else
    hi ← threshold str_to_float emax;
    if gtb v hi then Ok STATE_HIGH else Ok STATE_OK.

(** The status a reading gets against the maximum alone. *)
Definition compare_max (str_to_float : string -> option float)
  (value : pyval) (emax : option Entity.t) : result state :=
  v ← py_float str_to_float value;
  hi ← threshold str_to_float emax;
  if gtb v hi then Ok STATE_HIGH else Ok STATE_OK.

(** The status the daily light integral gets from the value of its last
    period; a bound is read only when that value is above zero. *)
Definition compare_dli (str_to_float : string -> option float)
  (d : Entity.t) (emin emax : option Entity.t) : result state :=
  lp ← last_period d;
  v ← py_float str_to_float lp;
  if gtb v 0%float then
    lo ← threshold str_to_float emin;
    if PrimFloat.ltb v lo then Ok STATE_LOW
    else
      hi ← threshold str_to_float emax;
      if gtb v hi then Ok STATE_HIGH else Ok STATE_OK
  else Ok STATE_OK.

(** What the block of a metric comes to: nothing ([None]) when the metric
    has no reading, an exception, or a status. *)
Definition verdict (str_to_float : string -> option float)
  (hass : HomeAssistant) (self : PlantDevice) (m : metric)
  : option (result state) :=
  if contributes hass self m then
    match m with
    | ATTR_DLI =>
        match dli self with
        | Some d =>
            Some (compare_dli str_to_float d (min_of m self) (max_of m self))
        | None => None
        end
    | ATTR_ILLUMINANCE =>
        match sensor_of m self with
        | Some sensor =>
            Some (compare_max str_to_float
                    (states_get_state hass (Entity.entity_id sensor))
                    (max_of m self))
        | None => None
        end
    | _ =>
        match sensor_of m self with
        | Some sensor =>
            Some (compare_min_max str_to_float
                    (states_get_state hass (Entity.entity_id sensor))
                    (min_of m self) (max_of m self))
        | None => None
        end
    end
  else None.

(** The status is a breach of a bound. *)
Definition is_breach (s : option state) : bool :=
  match s with
  | Some STATE_LOW | Some STATE_HIGH => true
  | _ => false
  end.

(** The local variables after a block that gave the status [s]. *)
Definition after_status (m : metric) (self : PlantDevice) (s : state)
  (l : locals) : locals :=
  if is_breach (Some s) then flag_problem m self (set_known l)
  else set_known l.

(** Two devices differ in their per-metric statuses at most. *)
Definition same_but_statuses (a b : PlantDevice) : Prop :=
  b = with_statuses (statuses b) a.

(** The four metrics checked against both bounds by the same block. *)
Definition general (m : metric) : bool :=
  match m with
  | ATTR_MOISTURE | ATTR_CONDUCTIVITY | ATTR_TEMPERATURE | ATTR_HUMIDITY => true
  | ATTR_ILLUMINANCE | ATTR_DLI => false
  end.

(** What a block leaves behind, by what it comes to. *)
Definition block_outcome (m : metric) (l : locals) (self : PlantDevice)
  (v : option (result state)) : result locals * PlantDevice :=
  match v with
  | None => (Ok l, self)
  | Some (Raise e) => (Raise e, self)
  | Some (Ok s) => (Ok (after_status m self s l), assign_status m (Some s) self)
  end.

(** The status the pass gives the metric, when it gives one. *)
Definition classified (str_to_float : string -> option float)
  (hass : HomeAssistant) (self : PlantDevice) (m : metric) : option state :=
  match verdict str_to_float hass self m with
  | Some (Ok s) => Some s
  | _ => None
  end.

(** The local variables as [update] initialises them. *)
Definition init_locals : locals :=
  {| new_state := STATE_OK; known_state := false |}.

(** The end of [update]: the state is assigned and the registry updated. *)
Definition finish (hass : HomeAssistant) (l : locals) (self : PlantDevice)
  : PlantDevice :=
  let d :=
    assign_attr_state (if known_state l then new_state l else UNKNOWN) self in
  match _device_id d with
  | None =>
      assign_device_id (Some (device_registry hass (entry_id (_config d)))) d
  | Some _ => d
  end.

(** Two devices hold the same entities and the same configuration. *)
Definition same_inputs (a b : PlantDevice) : Prop :=
  _config a = _config b /\ thresholds a = thresholds b
  /\ sensors a = sensors b /\ dli a = dli b.

(** The metric has no reading: its sensor is not attached, or the state
    machine has no state for it, or the state is one of the two sentinels;
    for the integral sensor, the conditions its block tests on the entity. *)
Definition absent (hass : HomeAssistant) (self : PlantDevice) (m : metric)
  : Prop :=
  match m with
  | ATTR_DLI =>
      match dli self with
      | None => True
      | Some d =>
          Entity.native_value d = PyStr STATE_UNKNOWN
          \/ Entity.native_value d = PyStr STATE_UNAVAILABLE
          \/ Entity.state d = PyNone
      end
  | _ =>
      match sensor_of m self with
      | None => True
      | Some sensor =>
          let value := states_get_state hass (Entity.entity_id sensor) in
          value = PyNone \/ value = PyStr STATE_UNKNOWN
          \/ value = PyStr STATE_UNAVAILABLE
      end
  end.

(** The status is one of [STATE_OK], [STATE_LOW] and [STATE_HIGH]. *)
Definition status_assigned (s : option state) : bool :=
  match s with
  | Some STATE_OK | Some STATE_LOW | Some STATE_HIGH => true
  | _ => false
  end.

(** The state is one of [STATE_OK], [STATE_PROBLEM] and [STATE_UNKNOWN]. *)
Definition aggregate_state (s : state) : bool :=
  match s with
  | STATE_OK | STATE_PROBLEM | UNKNOWN => true
  | _ => false
  end.

(** The call is one of [add_dli]. *)
Definition is_add_dli (c : call) : bool :=
  match c with
  | Call_add_dli _ => true
  | _ => false
  end.

(** Every reading there is can be evaluated: the reading of a meter is a
    number and both thresholds of its metric are attached and hold numbers;
    the integral sensor with a value has a last period that is a number, and
    both its thresholds are attached and hold numbers. *)
Definition readable (str_to_float : string -> option float)
  (hass : HomeAssistant) (self : PlantDevice) : Prop :=
  (forall m sensor s,
      m <> ATTR_DLI ->
      sensor_of m self = Some sensor ->
      states hass !! Entity.entity_id sensor = Some s ->
      s <> STATE_UNKNOWN -> s <> STATE_UNAVAILABLE ->
      (exists v, str_to_float s = Some v)
      /\ (exists lo, threshold str_to_float (min_of m self) = Ok lo)
      /\ (exists hi, threshold str_to_float (max_of m self) = Ok hi))
  /\ (forall d,
        dli self = Some d -> dli_guard d = true ->
        (exists lp v, last_period d = Ok lp /\ py_float str_to_float lp = Ok v)
        /\ (exists lo, threshold str_to_float (min_dli (thresholds self)) = Ok lo)
        /\ (exists hi, threshold str_to_float (max_dli (thresholds self)) = Ok hi)).

(** ** The lists of entities *)

(** [threshold_entities], [meter_entities] and [integral_entities]: the
    attributes in the order the properties list them; an attribute that is
    still [None] is listed as [None]. *)
Definition threshold_entities (self : PlantDevice) : list (option Entity.t) :=
  let t := thresholds self in
  [ max_conductivity t; max_dli t; max_humidity t; max_illuminance t;
    max_moisture t; max_temperature t;
    min_conductivity t; min_dli t; min_humidity t; min_illuminance t;
    min_moisture t; min_temperature t ].

Definition meter_entities (self : PlantDevice) : list (option Entity.t) :=
  let s := sensors self in
  [ sensor_conductivity s; sensor_humidity s; sensor_illuminance s;
    sensor_moisture s; sensor_temperature s ].

Definition integral_entities (self : PlantDevice) : list (option Entity.t) :=
  [ dli self; ppfd self; total_integral self ].

(** [device_id]: the id used for all the entities of the device. *)
Definition device_id (self : PlantDevice) : option string := _device_id self.

(** An attribute holds an entity. *)
Definition is_attached (e : option Entity.t) : bool :=
  match e with
  | Some _ => true
  | None => false
  end.

(** Every entity the websocket response reads is attached: the twelve
    thresholds, the five meters and the integral sensor. *)
Definition fully_attached (self : PlantDevice) : bool :=
  forallb is_attached
    (threshold_entities self ++ meter_entities self ++ [dli self])%list.

(** The state of the integral sensor is one the websocket response can
    show: a state that is empty or [None], the text [STATE_UNKNOWN], or a
    number. *)
Definition dli_state_shown (str_to_float : string -> option float)
  (st : pyval) : bool :=
  if truthy st && py_ne_str st STATE_UNKNOWN
  then match py_float str_to_float st with
       | Ok _ => true
       | Raise _ => false
       end
  else true.

(** The metrics of the websocket response, in the order of its keys. *)
Definition websocket_keys : list metric :=
  [ATTR_TEMPERATURE; ATTR_ILLUMINANCE; ATTR_MOISTURE; ATTR_CONDUCTIVITY;
   ATTR_HUMIDITY; ATTR_DLI].

(** ** The service that replaces the sensor of a meter *)

(** What [replace_sensor] does with a call: it refuses, with one of its four
    messages, or it calls [replace_external_sensor(new_sensor)] on meters,
    in this order. *)
Inductive replace_reply : Type :=
  | refuse_not_a_meter
  | refuse_not_a_sensor
  | refuse_meter_not_found
  | refuse_new_sensor_not_found
  | replace_external_sensor (new_sensor : option string)
      (meters : list Entity.t).

(** [sensor.entity_id == meter_entity], where the call may hold no
    [meter_entity]. *)
Definition is_entity (meter_entity : option string) (e : Entity.t) : bool :=
  match meter_entity with
  | Some id => String.eqb (Entity.entity_id e) id
  | None => false
  end.

(** The first loop of [replace_sensor] over [hass.data[DOMAIN]]: each entry
    is seen as its list under [ATTR_SENSORS], when it has that key. *)
Fixpoint found_meter (entries : list (string * option (list Entity.t)))
  (meter_entity : option string) : bool :=
  match entries with
  | [] => false
  | (_, None) :: rest => found_meter rest meter_entity
  | (_, Some sensors) :: rest =>
      existsb (is_entity meter_entity) sensors || found_meter rest meter_entity
  end.

(** The last loop of [replace_sensor]: the meters it calls, in order. *)
Fixpoint matching_meters (entries : list (string * option (list Entity.t)))
  (meter_entity : option string) : list Entity.t :=
  match entries with
  | [] => []
  | (_, None) :: rest => matching_meters rest meter_entity
  | (_, Some meters) :: rest =>
      (List.filter (is_entity meter_entity) meters
       ++ matching_meters rest meter_entity)%list
  end.

(** [new_sensor and new_sensor != ""]: the call names a new sensor. *)
Definition names_sensor (new_sensor : option string) : option string :=
  match new_sensor with
  | Some s => if String.eqb s "" then None else Some s
  | None => None
  end.

(** [hass.states.get(entity_id) is None]. *)
Definition has_state (hass : HomeAssistant) (id : option string) : bool :=
  match id with
  | Some i => match states hass !! i with Some _ => true | None => false end
  | None => false
  end.

(** [replace_sensor]: [domain_data] is [hass.data.get(DOMAIN)], indexed
    without a check, and the two strings are [call.data.get(...)]. *)
Definition replace_sensor (hass : HomeAssistant)
  (domain_data : option (list (string * option (list Entity.t))))
  (meter_entity new_sensor : option string) : result replace_reply :=
  match domain_data with
  | None => Raise KeyError
  | Some entries =>
      if negb (found_meter entries meter_entity) then Ok refuse_not_a_meter
      else
        match names_sensor new_sensor with
        | Some s =>
            if negb (String.prefix "sensor." s) then Ok refuse_not_a_sensor
            else if negb (has_state hass meter_entity)
            then Ok refuse_meter_not_found
            else if negb (has_state hass (Some s))
            then Ok refuse_new_sensor_not_found
            else Ok (replace_external_sensor (Some s)
                       (matching_meters entries meter_entity))
        | None =>
            if negb (has_state hass meter_entity)
            then Ok refuse_meter_not_found
            else Ok (replace_external_sensor None
                       (matching_meters entries meter_entity))
        end
  end.

(** ** Unloading a configuration entry *)

(** A value of the dictionary of an entry, as [async_unload_entry] looks at
    it: [None] or an object. *)
Inductive item : Type :=
  | ItemNone
  | ItemObject.

#[global] Instance item_eq_dec : EqDecision item.
Proof. solve_decision. Defined.

(** What [async_unload_entry] leaves: its result, [hass.data.get(DOMAIN)]
    after it, and whether it removed the service. *)
Record unload_outcome : Type := {
  unload_ok : bool;
  domain_after : option (gmap string (gmap string item));
  service_removed : bool
}.

(** [async_unload_entry] of [__init__.py].  The two results awaited from
    the host are arguments: what the component answers to
    [async_unload_entry] and what [async_unload_platforms] answers.  The key
    [ATTR_COMPONENT] is an argument too. *)
Definition async_unload_entry (ATTR_COMPONENT : string)
  (component_unloads platforms_unload : bool)
  (domain_data : option (gmap string (gmap string item)))
  (entry : string) : result unload_outcome :=
  match domain_data with
  | None => Raise KeyError
  | Some data =>
      match data !! entry with
      | None => Raise KeyError
      | Some entry_data =>
          match entry_data !! ATTR_COMPONENT with
          | None => Raise KeyError
          | Some component =>
              let ok :=
                match component with
                | ItemNone => false
                | ItemObject => component_unloads
                end in
              let ok := if ok then platforms_unload else false in
              if ok then
                let popped := delete entry data in
                let kept :=
                  filter (fun kv : string * gmap string item => kv.2 <> ∅)
                         popped in
                if decide (kept = ∅)
                then Ok {| unload_ok := true; domain_after := None;
                           service_removed := true |}
                else Ok {| unload_ok := true; domain_after := Some kept;
                           service_removed := false |}
              else Ok {| unload_ok := false; domain_after := Some data;
                         service_removed := false |}
          end
      end
  end.

(** Two devices hold the same entities; their configuration may differ. *)
Definition same_entities (a b : PlantDevice) : Prop :=
  thresholds a = thresholds b /\ sensors a = sensors b /\ dli a = dli b.

(** The outcomes of two runs agree: both return, or both raise the same. *)
Definition same_outcome {A B : Type} (ra : result A) (rb : result B) : Prop :=
  match ra, rb with
  | Ok _, Ok _ => True
  | Raise e, Raise e' => e = e'
  | _, _ => False
  end.

(** A websocket response with all of its entries: the six metrics in the
    order of the keys, each with the states of its two thresholds; a metric
    with a meter has the id of the meter and its state, or
    [STATE_UNAVAILABLE] in place of a state that is empty or [None]; the
    integral has the id of its sensor. *)
Definition full_response (self : PlantDevice)
  (response : list (metric * MetricInfo)) : Prop :=
  map fst response = websocket_keys
  /\ forall m info,
       In (m, info) response ->
       Some (ATTR_MAX info) = Entity.state <$> max_of m self
       /\ Some (ATTR_MIN info) = Entity.state <$> min_of m self
       /\ (m <> ATTR_DLI ->
           Some (ATTR_SENSOR info) = Entity.entity_id <$> sensor_of m self
           /\ Some (ATTR_CURRENT info)
              = (fun e => or_unavailable (Entity.state e)) <$> sensor_of m self
           /\ truthy (ATTR_CURRENT info) = true)
       /\ (m = ATTR_DLI ->
           Some (ATTR_SENSOR info) = Entity.entity_id <$> dli self).

(** What the websocket handler does with what [websocket_info] came to:
    it sends the result; a [ValueError] is logged and nothing is sent; any
    other exception is not caught. *)
Definition reply_of (r : result (list (metric * MetricInfo))) : ws_reply :=
  match r with
  | Ok response => send_result response
  | Raise ValueError => logged_warning
  | Raise e => uncaught e
  end.

(** The calls that assign nothing [update] reads: the picture, the
    species, the intermediate calculations and the registration. *)
Definition evaluation_neutral (c : call) : bool :=
  match c with
  | Call_add_image _ | Call_add_species _ | Call_add_calculations _ _
  | Call_update_registry _ => true
  | Call_add_thresholds _ | Call_add_sensors _ | Call_add_dli _
  | Call_update _ => false
  end.

(** ** Sample data *)

(** A reader for strings of decimal digits, on which it is Python's [float];
    the examples below give it no other numeral. *)
Fixpoint digits_value (s : string) (acc : Z) : option Z :=
  match s with
  | EmptyString => Some acc
  | String c rest =>
      let n := Ascii.nat_of_ascii c in
      if (48 <=? n)%nat && (n <=? 57)%nat
      then digits_value rest (10 * acc + Z.of_nat (n - 48))
      else None
  end.

Definition float_of_digits (s : string) : option float :=
  match s with
  | EmptyString => None
  | _ =>
      match digits_value s 0 with
      | Some n => Some (PrimFloat.of_uint63 (Uint63.of_Z n))
      | None => None
      end
  end.

(** A threshold entity holding a number, and a meter entity with an id. *)
Definition sample_number (id : string) (v : float) : Entity.t :=
  Entity.mk id (PyFloat v) (PyFloat v) None None ∅.

Definition sample_meter (id : string) : Entity.t :=
  Entity.mk id PyNone PyNone None None ∅.

(** An integral sensor with a state and the value of its last period. *)
Definition sample_dli (st : string) (last : string) : Entity.t :=
  Entity.mk "sensor.fern_dli" (PyStr st) (PyStr st) None (Some "mol/d/m2")
            {[ "last_period" := PyStr last ]}.

(** A configuration entry whose options hold the moisture trigger or not. *)
Definition sample_config (moisture_trigger : option bool) : ConfigEntry :=
  {| entry_id := "entry-1";
     data := {| ATTR_NAME := "Fern"; ATTR_ENTITY_PICTURE := None;
                ATTR_SPECIES := Some "nephrolepis exaltata";
                OPB_DISPLAY_PID := None |};
     options :=
       {| OPT_ENTITY_PICTURE := None; OPT_SPECIES := None;
          OPT_DISPLAY_PID := None;
          FLOW_ILLUMINANCE_TRIGGER := None; FLOW_HUMIDITY_TRIGGER := None;
          FLOW_TEMPERATURE_TRIGGER := None; FLOW_DLI_TRIGGER := None;
          FLOW_MOISTURE_TRIGGER := moisture_trigger;
          FLOW_CONDUCTIVITY_TRIGGER := None |} |}.

Definition sample_thresholds : Thresholds :=
  {| max_moisture := Some (sample_number "number.fern_max_moisture" 60);
     min_moisture := Some (sample_number "number.fern_min_moisture" 20);
     max_temperature := Some (sample_number "number.fern_max_temperature" 30);
     min_temperature := Some (sample_number "number.fern_min_temperature" 10);
     max_conductivity := Some (sample_number "number.fern_max_conductivity" 3000);
     min_conductivity := Some (sample_number "number.fern_min_conductivity" 500);
     max_illuminance := Some (sample_number "number.fern_max_illuminance" 40000);
     min_illuminance := Some (sample_number "number.fern_min_illuminance" 0);
     max_humidity := Some (sample_number "number.fern_max_humidity" 60);
     min_humidity := Some (sample_number "number.fern_min_humidity" 20);
     max_dli := Some (sample_number "number.fern_max_dli" 30);
     min_dli := Some (sample_number "number.fern_min_dli" 2) |}.

Definition sample_sensors : Sensors :=
  {| sensor_moisture := Some (sample_meter "sensor.fern_moisture");
     sensor_temperature := Some (sample_meter "sensor.fern_temperature");
     sensor_conductivity := Some (sample_meter "sensor.fern_conductivity");
     sensor_illuminance := Some (sample_meter "sensor.fern_illuminance");
     sensor_humidity := Some (sample_meter "sensor.fern_humidity") |}.

(** A plant with its thresholds and meters attached, as the number and
    sensor platforms attach them, and no integral sensor yet. *)
Definition sample_plant (moisture_trigger : option bool) : PlantDevice :=
  add_sensors sample_sensors
    (add_thresholds sample_thresholds
       (__init__ (sample_config moisture_trigger) "plant.fern")).

(** A host whose state machine holds the given states. *)
Definition sample_hass (st : gmap string string) : HomeAssistant :=
  {| states := st; device_registry := fun _ => "device-1" |}.

(** The hosts of the examples: one state machine each. *)
Definition hass_empty : HomeAssistant := sample_hass ∅.

Definition hass_moisture_15 : HomeAssistant :=
  sample_hass {[ "sensor.fern_moisture" := "15" ]}.

Definition hass_temperature_20 : HomeAssistant :=
  sample_hass {[ "sensor.fern_temperature" := "20" ]}.

Definition hass_illuminance_50000 : HomeAssistant :=
  sample_hass {[ "sensor.fern_illuminance" := "50000" ]}.

Definition hass_moisture_unavailable : HomeAssistant :=
  sample_hass {[ "sensor.fern_moisture" := "unavailable" ]}.


(** The sample plant with an integral sensor attached: its state and the
    value of its last period. *)
Definition sample_plant_dli (st last : string) : PlantDevice :=
  add_dli (Some (sample_dli st last)) (sample_plant None).

(** Thresholds whose moisture bounds are the wrong way round: the minimum
    is 30 and the maximum is 20. *)
Definition swapped_thresholds : Thresholds :=
  {| max_moisture := Some (sample_number "number.fern_max_moisture" 20);
     min_moisture := Some (sample_number "number.fern_min_moisture" 30);
     max_temperature := max_temperature sample_thresholds;
     min_temperature := min_temperature sample_thresholds;
     max_conductivity := max_conductivity sample_thresholds;
     min_conductivity := min_conductivity sample_thresholds;
     max_illuminance := max_illuminance sample_thresholds;
     min_illuminance := min_illuminance sample_thresholds;
     max_humidity := max_humidity sample_thresholds;
     min_humidity := min_humidity sample_thresholds;
     max_dli := max_dli sample_thresholds;
     min_dli := min_dli sample_thresholds |}.

Definition swapped_plant : PlantDevice :=
  add_thresholds swapped_thresholds (sample_plant None).

Definition hass_moisture_25 : HomeAssistant :=
  sample_hass {[ "sensor.fern_moisture" := "25" ]}.

(** A new plant on which only [add_dli] has been called: no threshold and
    no meter has been attached. *)
Definition dli_only_plant : PlantDevice :=
  add_dli (Some (sample_dli "3" "1")) (__init__ (sample_config None) "plant.fern").

(** The sample plant after an earlier pass that found illuminance too
    high, and with another species set: a device with a history. *)
Definition plant_with_history : PlantDevice :=
  snd (update float_of_digits hass_illuminance_50000
         (add_species (Some "pteridium") (sample_plant None))).

(** The sample plant with its meters attached and no threshold at all. *)
Definition plant_without_thresholds : PlantDevice :=
  add_sensors sample_sensors (__init__ (sample_config None) "plant.fern").

(** An integral sensor with a state and no value of a last period. *)
Definition dli_without_last_period : Entity.t :=
  Entity.mk "sensor.fern_dli" (PyStr "3") (PyStr "3") None None ∅.

(** The meters of the sample plant as the service finds them under
    [ATTR_SENSORS], after an entry that has no such key; and a host that
    has a state for the moisture meter and for one more sensor. *)
Definition sample_meters : list (string * option (list Entity.t)) :=
  [ ("entry-0", None);
    ("entry-1", Some [ sample_meter "sensor.fern_moisture";
                       sample_meter "sensor.fern_temperature" ]) ].

Definition hass_two_sensors : HomeAssistant :=
  sample_hass {[ "sensor.fern_moisture" := "unknown";
                 "sensor.balcony_moisture" := "41" ]}.

(** The data of the domain with three entries: the plant to unload, an
    entry left empty, and another plant. *)
Definition sample_domain : gmap string (gmap string item) :=
  {[ "entry-1" := {[ "component" := ItemObject; "plant" := ItemObject ]};
     "entry-2" := ∅;
     "entry-3" := {[ "component" := ItemObject ]} ]}.

Definition hass_moisture_70 : HomeAssistant :=
  sample_hass {[ "sensor.fern_moisture" := "70" ]}.

(** * Properties *)

(** ** Comparison of floats *)

Lemma SFcompare_Lt_Gt (a b : SpecFloat.spec_float) :
  SpecFloat.SFcompare b a = Some Lt -> SpecFloat.SFcompare a b = Some Gt.
Proof.
  destruct a as [sa|sa| |sa ma ea], b as [sb|sb| |sb mb eb]; simpl;
    try destruct sa; try destruct sb; simpl; try congruence;
    rewrite (Z.compare_antisym eb ea);
    destruct (eb ?= ea)%Z; simpl; try congruence;
    change (Pos.compare_cont Eq ma mb) with (Pos.compare_cont (CompOpp Eq) ma mb);
    rewrite <- (Pos.compare_cont_antisym mb ma Eq);
    destruct (Pos.compare_cont Eq mb ma); simpl; congruence.
Qed.

(** [a <= b] excludes [a > b], also for the special values. *)
Lemma leb_not_gtb (a b : float) : PrimFloat.leb a b = true -> gtb a b = false.
Proof.
  unfold gtb. rewrite leb_spec, ltb_spec.
  unfold SpecFloat.SFleb, SpecFloat.SFltb.
  destruct (SpecFloat.SFcompare (Prim2SF b) (Prim2SF a)) as [[]|] eqn:E;
    try reflexivity.
  rewrite (SFcompare_Lt_Gt _ _ E). discriminate.
Qed.

Lemma SFcompare_le_lt_trans (a b c : SpecFloat.spec_float) :
  SpecFloat.SFleb a b = true -> SpecFloat.SFltb b c = true ->
  SpecFloat.SFltb c a = false.
Proof.
  unfold SpecFloat.SFleb, SpecFloat.SFltb.
  destruct a as [sa|sa| |sa ma ea], b as [sb|sb| |sb mb eb],
           c as [sc|sc| |sc mc ec]; simpl;
    try destruct sa; try destruct sb; try destruct sc; simpl;
    try congruence; try reflexivity;
    change (Pos.compare_cont Eq) with Pos.compare;
    repeat match goal with
           | |- context [(?x ?= ?y)%Z] => destruct (Z.compare_spec x y)
           end; simpl; try congruence; try lia;
    repeat match goal with
           | |- context [(?x ?= ?y)%positive] =>
               destruct (Pos.compare_spec x y)
           end; simpl; try congruence; try lia.
Qed.

(** With [a <= b], a number above [b] is not below [a]. *)
Lemma gtb_max_not_below_min (v a b : float) :
  PrimFloat.leb a b = true -> gtb v b = true -> PrimFloat.ltb v a = false.
Proof.
  unfold gtb. rewrite leb_spec, !ltb_spec. apply SFcompare_le_lt_trans.
Qed.

(** ** Assignments to statuses *)

Ltac run_M :=
  unfold mbind, mret, M_bind, M_ret, result_bind, result_ret, lift, get_self,
    assign, raise in *.

Lemma in_all_metrics (m : metric) : m ∈ all_metrics.
Proof. unfold all_metrics. destruct m; repeat constructor. Qed.

Lemma get_status_assign_eq m v d : get_status m (assign_status m v d) = v.
Proof. destruct m; reflexivity. Qed.

Lemma get_status_assign_ne m m' v d :
  m <> m' -> get_status m' (assign_status m v d) = get_status m' d.
Proof. destruct m, m'; intros H; try reflexivity; contradiction. Qed.

Lemma assign_status_same m s d :
  get_status m d = s -> assign_status m s d = d.
Proof.
  destruct d as [? ? ? ? ? ? ? ? ? ? ? ? [] ?].
  destruct m; simpl; intros <-; reflexivity.
Qed.

Lemma same_but_statuses_refl d : same_but_statuses d d.
Proof. destruct d; reflexivity. Qed.

Lemma same_but_statuses_trans a b c :
  same_but_statuses a b -> same_but_statuses b c -> same_but_statuses a c.
Proof.
  unfold same_but_statuses. intros Hab Hbc. rewrite Hbc, Hab. reflexivity.
Qed.

Lemma same_but_statuses_inputs a b : same_but_statuses a b -> same_inputs a b.
Proof. intros ->. repeat split. Qed.

Lemma same_inputs_sym a b : same_inputs a b -> same_inputs b a.
Proof. intros (? & ? & ? & ?). repeat split; congruence. Qed.

Lemma same_inputs_trans a b c :
  same_inputs a b -> same_inputs b c -> same_inputs a c.
Proof. intros (? & ? & ? & ?) (? & ? & ? & ?). repeat split; congruence. Qed.

Lemma py_ne_str_false_iff v c : py_ne_str v c = false <-> v = PyStr c.
Proof.
  destruct v as [|s|x]; simpl; try (split; discriminate).
  destruct (String.eqb_spec s c) as [->|Hne]; simpl.
  - tauto.
  - split; [discriminate | congruence].
Qed.

Lemma is_known_false_iff v :
  is_known v = false <->
  v = PyNone \/ v = PyStr STATE_UNKNOWN \/ v = PyStr STATE_UNAVAILABLE.
Proof.
  unfold is_known.
  rewrite !andb_false_iff, !py_ne_str_false_iff.
  destruct v; simpl; split; intros H;
    repeat match goal with
           | H : _ \/ _ |- _ => destruct H
           end;
    try discriminate; auto.
Qed.

Lemma dli_guard_false_iff d :
  dli_guard d = false <->
  Entity.native_value d = PyStr STATE_UNKNOWN
  \/ Entity.native_value d = PyStr STATE_UNAVAILABLE
  \/ Entity.state d = PyNone.
Proof.
  unfold dli_guard.
  rewrite !andb_false_iff, !py_ne_str_false_iff.
  destruct (Entity.state d); simpl; split; intros H;
    repeat match goal with
           | H : _ \/ _ |- _ => destruct H
           end;
    try discriminate; auto.
Qed.

Section Blocks.

Variable f : string -> option float.
Variable hass : HomeAssistant.

Lemma trigger_same_inputs a b m : same_inputs a b -> trigger m a = trigger m b.
Proof. intros (Hc & _). unfold trigger. rewrite Hc. reflexivity. Qed.

Lemma contributes_same_inputs a b m :
  same_inputs a b -> contributes hass a m = contributes hass b m.
Proof.
  intros (_ & _ & Hs & Hd). unfold contributes, sensor_of.
  rewrite Hs, Hd. reflexivity.
Qed.

Lemma verdict_same_inputs a b m :
  same_inputs a b -> verdict f hass a m = verdict f hass b m.
Proof.
  intros H. unfold verdict. rewrite (contributes_same_inputs a b m H).
  destruct H as (_ & Ht & Hs & Hd).
  unfold sensor_of, min_of, max_of. rewrite Ht, Hs, Hd. reflexivity.
Qed.

Lemma after_status_same_inputs a b m s l :
  same_inputs a b -> after_status m a s l = after_status m b s l.
Proof.
  intros H. unfold after_status, flag_problem.
  rewrite (trigger_same_inputs a b m H). reflexivity.
Qed.

(** The guard of a block fails exactly when the metric has no reading. *)
Lemma contributes_false_iff self m :
  contributes hass self m = false <-> absent hass self m.
Proof.
  unfold contributes, absent.
  destruct m; simpl;
    match goal with
    | |- context [match ?x with _ => _ end] => destruct x as [e|]; [|tauto]
    end;
    first [ apply is_known_false_iff | apply dli_guard_false_iff ].
Qed.

Lemma verdict_None self m :
  verdict f hass self m = None <-> contributes hass self m = false.
Proof.
  unfold verdict. destruct (contributes hass self m) eqn:E; [|tauto].
  split; [|discriminate].
  unfold contributes in E.
  destruct m; simpl in *;
    match goal with
    | |- context [match ?x with _ => _ end] => destruct x; congruence
    end.
Qed.

(** ** Each block, by what it comes to *)

Lemma below_min_eq m value self :
  below_min f m value self =
  (v ← py_float f value; lo ← threshold f (min_of m self);
   Ok (PrimFloat.ltb v lo), self).
Proof.
  unfold below_min, threshold. run_M.
  destruct (py_float f value); [|reflexivity].
  destruct (dot_state _); [|reflexivity]. simpl.
  destruct (py_float f _); reflexivity.
Qed.

Lemma above_max_eq m value self :
  above_max f m value self =
  (v ← py_float f value; hi ← threshold f (max_of m self);
   Ok (gtb v hi), self).
Proof.
  unfold above_max, threshold. run_M.
  destruct (py_float f value); [|reflexivity].
  destruct (dot_state _); [|reflexivity]. simpl.
  destruct (py_float f _); reflexivity.
Qed.

Lemma last_period_positive_eq d self :
  last_period_positive f d self =
  (lp ← last_period d; v ← py_float f lp; Ok (gtb v 0%float), self).
Proof.
  unfold last_period_positive. run_M.
  destruct (last_period d); [|reflexivity].
  destruct (py_float f _); reflexivity.
Qed.

Lemma check_min_max_verdict m l self :
  general m = true ->
  check_min_max f hass m l self = block_outcome m l self (verdict f hass self m).
Proof.
  intros Hg.
  assert (Hv : verdict f hass self m =
    match sensor_of m self with
    | Some sensor =>
        let value := states_get_state hass (Entity.entity_id sensor) in
        if is_known value
        then Some (compare_min_max f value (min_of m self) (max_of m self))
        else None
    | None => None
    end).
  { unfold verdict, contributes. destruct m; try discriminate Hg;
      destruct (sensor_of _ self); try reflexivity;
      simpl; destruct (is_known _); reflexivity. }
  rewrite Hv. clear Hv.
  unfold check_min_max. run_M.
  destruct (sensor_of m self) as [sensor|]; [|reflexivity].
  simpl. destruct (is_known _); [|reflexivity].
  rewrite below_min_eq. unfold compare_min_max. run_M.
  destruct (py_float f _) as [v|e] eqn:Ev; [|reflexivity].
  destruct (threshold f (min_of m self)) as [lo|e]; [|reflexivity].
  destruct (PrimFloat.ltb v lo); [reflexivity|].
  rewrite above_max_eq. run_M. rewrite Ev.
  destruct (threshold f (max_of m self)) as [hi|e]; [|reflexivity].
  destruct (gtb v hi); reflexivity.
Qed.

Lemma check_illuminance_verdict l self :
  check_illuminance f hass l self =
  block_outcome ATTR_ILLUMINANCE l self (verdict f hass self ATTR_ILLUMINANCE).
Proof.
  unfold verdict, contributes, check_illuminance, sensor_of. run_M.
  destruct (sensor_illuminance (sensors self)) as [sensor|]; [|reflexivity].
  destruct (is_known _); [|reflexivity].
  rewrite above_max_eq. unfold compare_max. run_M.
  destruct (py_float f _) as [v|e]; [|reflexivity].
  destruct (threshold f _) as [hi|e]; [|reflexivity].
  destruct (gtb v hi); reflexivity.
Qed.

Lemma check_dli_verdict l self :
  check_dli f l self =
  block_outcome ATTR_DLI l self (verdict f hass self ATTR_DLI).
Proof.
  unfold verdict, contributes, check_dli. run_M.
  destruct (dli self) as [d|]; [|reflexivity].
  destruct (dli_guard d); [|reflexivity].
  rewrite last_period_positive_eq. unfold compare_dli. run_M.
  destruct (last_period d) as [lp|e] eqn:Elp; [|reflexivity].
  destruct (py_float f lp) as [v|e] eqn:Ev; [|reflexivity].
  destruct (gtb v 0) eqn:Epos.
  - rewrite below_min_eq. run_M. rewrite Ev.
    destruct (threshold f (min_of ATTR_DLI self)) as [lo|e]; [|reflexivity].
    destruct (PrimFloat.ltb v lo); [reflexivity|].
    rewrite last_period_positive_eq. run_M. rewrite Elp, Ev, Epos.
    rewrite above_max_eq. run_M. rewrite Ev.
    destruct (threshold f (max_of ATTR_DLI self)) as [hi|e]; [|reflexivity].
    destruct (gtb v hi); reflexivity.
  - rewrite last_period_positive_eq. run_M. rewrite Elp, Ev, Epos.
    reflexivity.
Qed.

Lemma block_verdict m l self :
  block_of f hass m l self = block_outcome m l self (verdict f hass self m).
Proof.
  destruct m; try (apply check_min_max_verdict; reflexivity).
  - apply check_illuminance_verdict.
  - apply check_dli_verdict.
Qed.

End Blocks.

(** ** A pass, block after block *)

Section Pass.

Variable f : string -> option float.
Variable hass : HomeAssistant.

Lemma blocks_cons m ms l self :
  blocks f hass (m :: ms) l self =
  match verdict f hass self m with
  | None => blocks f hass ms l self
  | Some (Raise e) => (Raise e, self)
  | Some (Ok s) =>
      blocks f hass ms (after_status m self s l) (assign_status m (Some s) self)
  end.
Proof.
  cbn [blocks]. unfold mbind at 1. unfold M_bind. rewrite block_verdict.
  destruct (verdict f hass self m) as [[s|e]|]; reflexivity.
Qed.

(** [update] is its six blocks and its end. *)
Lemma update_blocks self :
  update f hass self =
  match blocks f hass all_metrics init_locals self with
  | (Ok l, d) => (Ok tt, finish hass l d)
  | (Raise e, d) => (Raise e, d)
  end.
Proof.
  unfold update, all_metrics, blocks, block_of. run_M. fold init_locals.
  destruct (check_min_max f hass ATTR_MOISTURE _ _) as [[l1|e] d1];
    [|reflexivity].
  destruct (check_min_max f hass ATTR_CONDUCTIVITY _ _) as [[l2|e] d2];
    [|reflexivity].
  destruct (check_min_max f hass ATTR_TEMPERATURE _ _) as [[l3|e] d3];
    [|reflexivity].
  destruct (check_min_max f hass ATTR_HUMIDITY _ _) as [[l4|e] d4];
    [|reflexivity].
  destruct (check_illuminance f hass _ _) as [[l5|e] d5]; [|reflexivity].
  destruct (check_dli f _ _) as [[l6|e] d6]; [|reflexivity].
  unfold finish, update_registry. run_M. cbn.
  destruct (_device_id d6); reflexivity.
Qed.

(** Whatever the outcome, the blocks touch statuses only, and only those of
    their own metrics, which get the status of this pass. *)
Lemma blocks_frame ms : forall l self r self',
  blocks f hass ms l self = (r, self') ->
  same_but_statuses self self' /\
  (forall m, m ∉ ms -> get_status m self' = get_status m self) /\
  (forall m, get_status m self' = get_status m self \/
             (exists s, classified f hass self m = Some s
                        /\ get_status m self' = Some s)).
Proof.
  induction ms as [|m0 ms IH]; intros l self r self' H.
  - inversion H; subst. split; [apply same_but_statuses_refl|]. split; auto.
  - rewrite blocks_cons in H.
    destruct (verdict f hass self m0) as [[s|e]|] eqn:Ev.
    + apply IH in H. destruct H as (Hs & Hn & Hc).
      split.
      { eapply same_but_statuses_trans; [|exact Hs]. reflexivity. }
      split.
      * intros m Hm. apply not_elem_of_cons in Hm as [Hne Hm].
        rewrite (Hn m Hm). apply get_status_assign_ne. congruence.
      * intros m. destruct (decide (m = m0)) as [->|Hne].
        -- right. exists s.
           split; [unfold classified; rewrite Ev; reflexivity|].
           destruct (Hc m0) as [Hc1|(s' & Hc1 & Hc2)].
           ++ rewrite Hc1. apply get_status_assign_eq.
           ++ unfold classified in Hc1.
              change (verdict f hass (assign_status m0 (Some s) self) m0)
                with (verdict f hass self m0) in Hc1.
              rewrite Ev in Hc1. congruence.
        -- destruct (Hc m) as [Hc1|(s' & Hc1 & Hc2)].
           ++ left. rewrite Hc1. apply get_status_assign_ne; congruence.
           ++ right. exists s'. split; [exact Hc1|exact Hc2].
    + inversion H; subst.
      split; [apply same_but_statuses_refl|]. split; auto.
    + apply IH in H. destruct H as (Hs & Hn & Hc).
      split; [exact Hs|].
      split; [|exact Hc].
      intros m Hm. apply not_elem_of_cons in Hm as [_ Hm]. auto.
Qed.

(** A metric without a reading keeps its status, whatever the outcome. *)
Lemma blocks_skip ms l self r self' m :
  blocks f hass ms l self = (r, self') ->
  contributes hass self m = false ->
  get_status m self' = get_status m self.
Proof.
  intros H Hc. apply blocks_frame in H as (_ & _ & H).
  destruct (H m) as [|(s & Hs & _)]; [assumption|].
  apply (proj2 (verdict_None f hass self m)) in Hc.
  unfold classified in Hs. rewrite Hc in Hs. discriminate.
Qed.

(** The blocks that all return: every metric with a reading has its status
    of this pass, and the local variables say what was seen. *)
Lemma blocks_Ok ms : forall l self l' self',
  blocks f hass ms l self = (Ok l', self') ->
  (forall m, m ∈ ms -> forall e, verdict f hass self m <> Some (Raise e)) /\
  (forall m s, m ∈ ms -> classified f hass self m = Some s ->
               get_status m self' = Some s) /\
  known_state l' = known_state l || existsb (contributes hass self) ms /\
  new_state l' =
    if existsb (fun m => trigger m self && is_breach (classified f hass self m)) ms
    then STATE_PROBLEM else new_state l.
Proof.
  induction ms as [|m0 ms IH]; intros l self l' self' H.
  - inversion H; subst. simpl. rewrite orb_false_r.
    repeat split; intros; try reflexivity;
      match goal with Hin : _ ∈ [] |- _ => inversion Hin end.
  - rewrite blocks_cons in H.
    destruct (verdict f hass self m0) as [[s|e]|] eqn:Ev; [| discriminate |].
    + pose proof (blocks_frame _ _ _ _ _ H) as (_ & _ & Hfr).
      apply IH in H. destruct H as (Hr & Hst & Hk & Hn).
      assert (Hcon : contributes hass self m0 = true).
      { destruct (contributes hass self m0) eqn:E; [reflexivity|].
        apply (proj2 (verdict_None f hass self m0)) in E. congruence. }
      split; [|split; [|split]].
      * intros m Hm e. apply elem_of_cons in Hm as [->|Hm]; [congruence|].
        apply (Hr m Hm e).
      * intros m s' Hm Hcl. apply elem_of_cons in Hm as [->|Hm].
        -- unfold classified in Hcl. rewrite Ev in Hcl. inversion Hcl; subst.
           destruct (Hfr m0) as [Heq|(s2 & Hc2 & Hs2)].
           ++ rewrite Heq. apply get_status_assign_eq.
           ++ unfold classified in Hc2.
              change (verdict f hass (assign_status m0 (Some s') self) m0)
                with (verdict f hass self m0) in Hc2.
              rewrite Ev in Hc2. congruence.
        -- apply (Hst m s' Hm Hcl).
      * rewrite Hk. simpl. rewrite Hcon.
        change (contributes hass (assign_status m0 (Some s) self))
          with (contributes hass self).
        unfold after_status, flag_problem, set_known.
        destruct (is_breach (Some s)); [destruct (trigger m0 self)|];
          simpl; rewrite ?orb_true_r; reflexivity.
      * rewrite Hn. simpl. unfold classified at 2. rewrite Ev.
        change (fun m => trigger m (assign_status m0 (Some s) self)
                         && is_breach (classified f hass
                              (assign_status m0 (Some s) self) m))
          with (fun m => trigger m self && is_breach (classified f hass self m)).
        match goal with
        | |- context [existsb ?g ms] => destruct (existsb g ms)
        end; [rewrite orb_true_r; reflexivity|].
        rewrite orb_false_r.
        unfold after_status, flag_problem, set_known.
        destruct (is_breach (Some s)); destruct (trigger m0 self);
          reflexivity.
    + apply IH in H. destruct H as (Hr & Hst & Hk & Hn).
      assert (Hcon : contributes hass self m0 = false)
        by (apply (proj1 (verdict_None f hass self m0)); exact Ev).
      split; [|split; [|split]].
      * intros m Hm e. apply elem_of_cons in Hm as [->|Hm]; [congruence|].
        apply (Hr m Hm e).
      * intros m s' Hm Hcl. apply elem_of_cons in Hm as [->|Hm].
        -- unfold classified in Hcl. rewrite Ev in Hcl. discriminate.
        -- apply (Hst m s' Hm Hcl).
      * rewrite Hk. simpl. rewrite Hcon. reflexivity.
      * rewrite Hn. simpl. unfold classified at 2. rewrite Ev. simpl.
        rewrite andb_false_r. reflexivity.
Qed.


(** The blocks return when no metric of the list fails. *)
Lemma blocks_return ms : forall l self,
  (forall m, m ∈ ms -> forall e, verdict f hass self m <> Some (Raise e)) ->
  exists l' self', blocks f hass ms l self = (Ok l', self').
Proof.
  induction ms as [|m0 ms IH]; intros l self H.
  - exists l, self. reflexivity.
  - rewrite blocks_cons.
    destruct (verdict f hass self m0) as [[s|e]|] eqn:Ev.
    + apply IH. intros m Hm e. apply (H m). right. exact Hm.
    + exfalso. apply (H m0 ltac:(left) e). exact Ev.
    + apply IH. intros m Hm e. apply (H m). right. exact Hm.
Qed.

(** Run again on a device that already has the statuses they left, the
    blocks come to the same and change nothing. *)
Lemma blocks_again ms : forall l a r a' b,
  blocks f hass ms l a = (r, a') ->
  same_inputs a' b -> statuses b = statuses a' ->
  blocks f hass ms l b = (r, b).
Proof.
  induction ms as [|m0 ms IH]; intros l a r a' b H Hin Hst.
  - inversion H; subst. reflexivity.
  - pose proof (blocks_frame _ _ _ _ _ H) as (Hfr & _ & _).
    assert (Hab : same_inputs a b).
    { eapply same_inputs_trans; [|exact Hin].
      apply same_but_statuses_inputs, Hfr. }
    rewrite blocks_cons in H. rewrite blocks_cons.
    rewrite <- (verdict_same_inputs f hass a b m0 Hab).
    destruct (verdict f hass a m0) as [[s|e]|] eqn:Ev.
    + pose proof (blocks_frame _ _ _ _ _ H) as (_ & _ & Hc).
      assert (Hs : get_status m0 b = Some s).
      { unfold get_status. rewrite Hst. fold (get_status m0 a').
        destruct (Hc m0) as [Heq|(s2 & Hc2 & Hs2)].
        - rewrite Heq. apply get_status_assign_eq.
        - unfold classified in Hc2.
          change (verdict f hass (assign_status m0 (Some s) a) m0)
            with (verdict f hass a m0) in Hc2.
          rewrite Ev in Hc2. congruence. }
      rewrite (assign_status_same _ _ _ Hs).
      rewrite <- (after_status_same_inputs a b m0 s l Hab).
      eapply IH; eassumption.
    + inversion H; subst. reflexivity.
    + eapply IH; eassumption.
Qed.

End Pass.

(** ** A whole pass *)

Section WholePass.

Variable f : string -> option float.
Variable hass : HomeAssistant.

Lemma In_all_metrics (m : metric) : In m all_metrics.
Proof. destruct m; simpl; tauto. Qed.

Lemma exists_metric (p : metric -> bool) :
  existsb p all_metrics = true <-> exists m, p m = true.
Proof.
  rewrite existsb_exists. split.
  - intros (m & _ & H). exists m. exact H.
  - intros (m & H). exists m. split; [apply In_all_metrics | exact H].
Qed.

Lemma get_status_finish m l d : get_status m (finish hass l d) = get_status m d.
Proof. unfold finish. simpl. destruct (_device_id d); reflexivity. Qed.

Lemma attr_state_finish l d :
  _attr_state (finish hass l d) = if known_state l then new_state l else UNKNOWN.
Proof. unfold finish. simpl. destruct (_device_id d); reflexivity. Qed.

Lemma same_inputs_finish l d : same_inputs d (finish hass l d).
Proof. unfold finish. simpl. destruct (_device_id d); repeat split. Qed.

Lemma update_Ok_inv self self' :
  update f hass self = (Ok tt, self') ->
  exists l d, blocks f hass all_metrics init_locals self = (Ok l, d)
              /\ self' = finish hass l d.
Proof.
  rewrite update_blocks.
  destruct (blocks f hass all_metrics init_locals self) as [[l|e] d];
    [|discriminate].
  intros H. inversion H. exists l, d. split; reflexivity.
Qed.

Lemma update_Raise_inv self e self' :
  update f hass self = (Raise e, self') ->
  blocks f hass all_metrics init_locals self = (Raise e, self').
Proof.
  rewrite update_blocks.
  destruct (blocks f hass all_metrics init_locals self) as [[l|e0] d];
    [discriminate|].
  intros H. inversion H. reflexivity.
Qed.

(** [update] returns when no metric fails. *)
Lemma update_returns self :
  (forall m e, verdict f hass self m <> Some (Raise e)) ->
  exists self', update f hass self = (Ok tt, self').
Proof.
  intros H. rewrite update_blocks.
  destruct (blocks_return f hass all_metrics init_locals self) as (l & d & E).
  { intros m _ e. apply H. }
  rewrite E. eexists. reflexivity.
Qed.

(** After a pass that returned, the status of a metric is the one this pass
    gave it, or the one it had when the pass gave it none. *)
Lemma update_Ok_status self self' m :
  update f hass self = (Ok tt, self') ->
  get_status m self' =
  match classified f hass self m with
  | Some s => Some s
  | None => get_status m self
  end.
Proof.
  intros H. apply update_Ok_inv in H as (l & d & Hb & ->).
  rewrite get_status_finish.
  destruct (classified f hass self m) as [s|] eqn:Ec.
  - apply blocks_Ok in Hb as (_ & Hst & _). apply Hst; [|exact Ec].
    apply in_all_metrics.
  - apply blocks_frame in Hb as (_ & _ & Hc).
    destruct (Hc m) as [|(s & Hs & _)]; congruence.
Qed.

(** In a pass that returned, a metric with a reading was given a status. *)
Lemma update_Ok_classified self self' m :
  update f hass self = (Ok tt, self') ->
  contributes hass self m = true ->
  exists s, classified f hass self m = Some s /\ get_status m self' = Some s.
Proof.
  intros H Hc. pose proof (update_Ok_status self self' m H) as Hst.
  apply update_Ok_inv in H as (l & d & Hb & ->).
  apply blocks_Ok in Hb as (Hr & _).
  specialize (Hr m (in_all_metrics m)).
  unfold classified in *.
  destruct (verdict f hass self m) as [[s|e]|] eqn:Ev.
  - exists s. split; [reflexivity | exact Hst].
  - exfalso. apply (Hr e). reflexivity.
  - apply (proj1 (verdict_None f hass self m)) in Ev. congruence.
Qed.

(** The state a pass that returned assigns. *)
Lemma update_Ok_state self self' :
  update f hass self = (Ok tt, self') ->
  _attr_state self' =
  if existsb (contributes hass self) all_metrics then
    if existsb (fun m => trigger m self
                         && is_breach (classified f hass self m)) all_metrics
    then STATE_PROBLEM else STATE_OK
  else UNKNOWN.
Proof.
  intros H. apply update_Ok_inv in H as (l & d & Hb & ->).
  rewrite attr_state_finish.
  apply blocks_Ok in Hb as (_ & _ & Hk & Hn).
  rewrite Hk, Hn. reflexivity.
Qed.

Lemma trigger_update self r self' m :
  update f hass self = (r, self') -> trigger m self' = trigger m self.
Proof.
  intros H. symmetry. apply trigger_same_inputs.
  rewrite update_blocks in H.
  destruct (blocks f hass all_metrics init_locals self) as [[l|e] d] eqn:Hb;
    inversion H; subst;
    apply blocks_frame in Hb as (Hs & _);
    apply same_but_statuses_inputs in Hs.
  - eapply same_inputs_trans; [exact Hs | apply same_inputs_finish].
  - exact Hs.
Qed.

(** The breaches that count for the state of a pass that returned: those of
    metrics with a reading in this pass and with their trigger on. *)
Lemma counted_breach_iff self self' :
  update f hass self = (Ok tt, self') ->
  (exists m, (trigger m self
              && is_breach (classified f hass self m)) = true) <->
  (exists m, contributes hass self m = true /\ trigger m self' = true
             /\ is_breach (get_status m self') = true).
Proof.
  intros H. split.
  - intros (m & Hm). apply andb_true_iff in Hm as [Ht Hbr].
    exists m.
    assert (Hc : contributes hass self m = true).
    { destruct (contributes hass self m) eqn:E; [reflexivity|].
      apply (proj2 (verdict_None f hass self m)) in E.
      unfold classified in Hbr. rewrite E in Hbr. discriminate. }
    split; [exact Hc|].
    rewrite (trigger_update _ _ _ m H). split; [exact Ht|].
    destruct (update_Ok_classified self self' m H Hc) as (s & Hs & ->).
    rewrite <- Hs. exact Hbr.
  - intros (m & Hc & Ht & Hbr). exists m.
    rewrite (trigger_update _ _ _ m H) in Ht. rewrite Ht. simpl.
    destruct (update_Ok_classified self self' m H Hc) as (s & -> & Hs).
    rewrite <- Hs. exact Hbr.
Qed.

(** The state of a pass that returned is [STATE_UNKNOWN] exactly when no
    metric had a reading. *)
Lemma update_unknown_iff self self' :
  update f hass self = (Ok tt, self') ->
  _attr_state self' = UNKNOWN <-> forall m, contributes hass self m = false.
Proof.
  intros H. rewrite (update_Ok_state self self' H).
  destruct (existsb (contributes hass self) all_metrics) eqn:Ex.
  - split.
    + intros E. exfalso.
      destruct (existsb (fun m => _ && _) all_metrics); discriminate.
    + intros E. apply exists_metric in Ex as (m & Hm).
      rewrite E in Hm. discriminate.
  - split; [|reflexivity]. intros _ m.
    destruct (contributes hass self m) eqn:Em; [|reflexivity].
    rewrite <- Ex. symmetry. apply exists_metric. exists m. exact Em.
Qed.

End WholePass.

(** * The claims *)

(** ** C1: the state a pass assigns *)

(** C1, as the code has it: after a pass of [update] that returned, the state
    is [STATE_UNKNOWN] exactly when no metric had a reading in this pass;
    it is [STATE_PROBLEM] exactly when some metric that had a reading in this
    pass and whose trigger is on was given the status low or high; and it is
    [STATE_OK] exactly when some metric had a reading and none of those with
    their trigger on was given low or high.  A status kept from an earlier
    pass does not count. *)
Theorem update_aggregate_state (f : string -> option float)
  (hass : HomeAssistant) (self self' : PlantDevice) :
  update f hass self = (Ok tt, self') ->
  (_attr_state self' = UNKNOWN <-> forall m, contributes hass self m = false)
  /\ (_attr_state self' = STATE_PROBLEM <->
      exists m, contributes hass self m = true /\ trigger m self' = true
                /\ is_breach (get_status m self') = true)
  /\ (_attr_state self' = STATE_OK <->
      (exists m, contributes hass self m = true)
      /\ ~ exists m, contributes hass self m = true /\ trigger m self' = true
                     /\ is_breach (get_status m self') = true).
Proof.
  intros H.
  pose proof (update_Ok_state f hass self self' H) as Hst.
  pose proof (counted_breach_iff f hass self self' H) as Hbr.
  rewrite <- exists_metric in Hbr.
  assert (Hk : existsb (contributes hass self) all_metrics = false <->
               forall m, contributes hass self m = false).
  { split.
    - intros E m. destruct (contributes hass self m) eqn:Em; [|reflexivity].
      rewrite <- E. symmetry. apply exists_metric. exists m. exact Em.
    - intros E. destruct (existsb _ all_metrics) eqn:Ex; [|reflexivity].
      apply exists_metric in Ex as (m & Hm). rewrite E in Hm. discriminate. }
  assert (Hk' : existsb (contributes hass self) all_metrics = true <->
                exists m, contributes hass self m = true)
    by apply exists_metric.
  destruct (existsb (contributes hass self) all_metrics).
  - destruct (existsb _ all_metrics); rewrite Hst.
    + split; [|split].
      * split; [discriminate|]. intros E. apply Hk in E. discriminate.
      * split; [intros _; apply Hbr; reflexivity | reflexivity].
      * split; [discriminate|]. intros [_ Hn]. exfalso. apply Hn, Hbr.
        reflexivity.
    + split; [|split].
      * split; [discriminate|]. intros E. apply Hk in E. discriminate.
      * split; [discriminate|]. intros E. apply Hbr in E. discriminate.
      * split; [|reflexivity]. intros _.
        split; [apply Hk'; reflexivity|]. intros E. apply Hbr in E.
        discriminate.
  - rewrite Hst. split; [|split].
    + split; [intros _; apply Hk; reflexivity | reflexivity].
    + split; [discriminate|]. intros (m & Hm & _).
      assert (E : contributes hass self m = false) by (apply Hk; reflexivity).
      congruence.
    + split; [discriminate|]. intros [E _]. apply Hk' in E. discriminate.
Qed.

(** Scenario A: moisture reads 15 against [20, 60] with its trigger on and
    nothing else has a reading; the state is [STATE_PROBLEM]. *)
Lemma update_aggregate_state_witness :
  let self' := snd (update float_of_digits hass_moisture_15 (sample_plant None)) in
  update float_of_digits hass_moisture_15 (sample_plant None) = (Ok tt, self')
  /\ _attr_state self' = STATE_PROBLEM
  /\ exists m, contributes hass_moisture_15 (sample_plant None) m = true
               /\ trigger m self' = true
               /\ is_breach (get_status m self') = true.
Proof.
  intros self'.
  assert (H : update float_of_digits hass_moisture_15 (sample_plant None)
              = (Ok tt, self')) by (vm_compute; reflexivity).
  split; [exact H|].
  assert (E : _attr_state self' = STATE_PROBLEM) by (vm_compute; reflexivity).
  split; [exact E|].
  exact (proj1 (proj1 (proj2
           (update_aggregate_state float_of_digits hass_moisture_15
              (sample_plant None) self' H))) E).
Defined.

(** C1 as stated fails: moisture is given low in a first pass and has no
    reading in the second, where temperature reads 20 against [10, 30].
    After the second pass moisture still has the status low and its trigger
    is on, a metric had a reading, and the state is [STATE_OK]. *)
Lemma retained_breach_not_counted :
  let pass1 := update float_of_digits hass_moisture_15 (sample_plant None) in
  let pass2 := update float_of_digits hass_temperature_20 (snd pass1) in
  fst pass1 = Ok tt /\ fst pass2 = Ok tt
  /\ contributes hass_temperature_20 (snd pass1) ATTR_TEMPERATURE = true
  /\ trigger ATTR_MOISTURE (snd pass2) = true
  /\ get_status ATTR_MOISTURE (snd pass2) = Some STATE_LOW
  /\ _attr_state (snd pass2) = STATE_OK.
Proof. vm_compute. repeat split. Qed.

(** ** Readings, in the words of the claims *)

Section Readings.

Variable f : string -> option float.
Variable hass : HomeAssistant.

(** A state of the state machine that is neither sentinel is a reading. *)
Lemma known_reading id s :
  states hass !! id = Some s -> s <> STATE_UNKNOWN -> s <> STATE_UNAVAILABLE ->
  states_get_state hass id = PyStr s /\ is_known (PyStr s) = true.
Proof.
  intros E H1 H2. unfold states_get_state. rewrite E. split; [reflexivity|].
  unfold is_known. simpl.
  destruct (String.eqb_spec s STATE_UNKNOWN); [contradiction|].
  destruct (String.eqb_spec s STATE_UNAVAILABLE); [contradiction|].
  reflexivity.
Qed.

Lemma contributes_meter m self sensor s :
  m <> ATTR_DLI ->
  sensor_of m self = Some sensor ->
  states hass !! Entity.entity_id sensor = Some s ->
  s <> STATE_UNKNOWN -> s <> STATE_UNAVAILABLE ->
  contributes hass self m = true.
Proof.
  intros Hm Hs E H1 H2.
  destruct (known_reading _ _ E H1 H2) as [Hv Hk].
  unfold contributes. rewrite Hs, Hv, Hk. destruct m; congruence.
Qed.

Lemma verdict_general m self sensor s :
  general m = true ->
  sensor_of m self = Some sensor ->
  states hass !! Entity.entity_id sensor = Some s ->
  s <> STATE_UNKNOWN -> s <> STATE_UNAVAILABLE ->
  verdict f hass self m =
  Some (compare_min_max f (PyStr s) (min_of m self) (max_of m self)).
Proof.
  intros Hg Hs E H1 H2.
  destruct (known_reading _ _ E H1 H2) as [Hv Hk].
  unfold verdict, contributes. rewrite Hs, Hv, Hk.
  destruct m; try discriminate Hg; reflexivity.
Qed.

Lemma verdict_illuminance self sensor s :
  sensor_illuminance (sensors self) = Some sensor ->
  states hass !! Entity.entity_id sensor = Some s ->
  s <> STATE_UNKNOWN -> s <> STATE_UNAVAILABLE ->
  verdict f hass self ATTR_ILLUMINANCE =
  Some (compare_max f (PyStr s) (max_illuminance (thresholds self))).
Proof.
  intros Hs E H1 H2.
  destruct (known_reading _ _ E H1 H2) as [Hv Hk].
  unfold verdict, contributes, sensor_of. rewrite Hs, Hv, Hk. reflexivity.
Qed.

Lemma verdict_dli self d :
  dli self = Some d -> dli_guard d = true ->
  verdict f hass self ATTR_DLI =
  Some (compare_dli f d (min_dli (thresholds self)) (max_dli (thresholds self))).
Proof.
  intros Hd Hg. unfold verdict, contributes. rewrite Hd, Hg. reflexivity.
Qed.

(** The status a metric has after a pass that returned, from what its
    block came to. *)
Lemma update_Ok_verdict self self' m r :
  update f hass self = (Ok tt, self') ->
  verdict f hass self m = Some r ->
  exists s, r = Ok s /\ get_status m self' = Some s.
Proof.
  intros H Hv.
  assert (Hc : contributes hass self m = true).
  { destruct (contributes hass self m) eqn:E; [reflexivity|].
    apply (proj2 (verdict_None f hass self m)) in E. congruence. }
  destruct (update_Ok_classified f hass self self' m H Hc) as (s & Hs & Hg).
  exists s. split; [|exact Hg].
  unfold classified in Hs. rewrite Hv in Hs. destruct r; congruence.
Qed.

End Readings.

(** ** C2: the daily light integral *)

(** C2, as the code has it, for a pass of [update] that returned.  When the
    integral sensor is not attached or its own value is unknown, unavailable
    or [None], its status is kept and it adds nothing to [known_state]: the
    state is [STATE_UNKNOWN] exactly when no other metric had a reading.
    Otherwise the sensor sets [known_state], whatever the value of its last
    period: the state is not [STATE_UNKNOWN]; a last period that is not
    above 0 gives the status ok; one above 0 gives low when it is below the
    minimum, and else high when it is above the maximum and ok when not. *)
Theorem dli_evaluation (f : string -> option float) (hass : HomeAssistant)
  (self self' : PlantDevice) :
  update f hass self = (Ok tt, self') ->
  (absent hass self ATTR_DLI ->
     get_status ATTR_DLI self' = get_status ATTR_DLI self
     /\ (_attr_state self' = UNKNOWN <->
         forall m, m <> ATTR_DLI -> contributes hass self m = false))
  /\ (forall d, dli self = Some d -> dli_guard d = true ->
        _attr_state self' <> UNKNOWN
        /\ forall lp v, last_period d = Ok lp -> py_float f lp = Ok v ->
             (gtb v 0 = false -> get_status ATTR_DLI self' = Some STATE_OK)
             /\ (gtb v 0 = true ->
                 forall lo, threshold f (min_dli (thresholds self)) = Ok lo ->
                   (PrimFloat.ltb v lo = true ->
                      get_status ATTR_DLI self' = Some STATE_LOW)
                   /\ (PrimFloat.ltb v lo = false ->
                       forall hi,
                         threshold f (max_dli (thresholds self)) = Ok hi ->
                         get_status ATTR_DLI self' =
                         Some (if gtb v hi then STATE_HIGH else STATE_OK)))).
Proof.
  intros H. split.
  - intros Ha. apply contributes_false_iff in Ha.
    split.
    + rewrite (update_Ok_status f hass self self' ATTR_DLI H).
      unfold classified.
      rewrite (proj2 (verdict_None f hass self ATTR_DLI) Ha). reflexivity.
    + rewrite (update_unknown_iff f hass self self' H). split.
      * intros E m _. apply E.
      * intros E m. destruct (decide (m = ATTR_DLI)) as [->|Hne]; auto.
  - intros d Hd Hg.
    pose proof (verdict_dli f hass self d Hd Hg) as Hv.
    destruct (update_Ok_verdict f hass self self' _ _ H Hv) as (s & Hs & Hst).
    split.
    + rewrite (update_unknown_iff f hass self self' H).
      intros E. specialize (E ATTR_DLI).
      apply (proj2 (verdict_None f hass self ATTR_DLI)) in E. congruence.
    + intros lp v Hlp Hf. unfold compare_dli in Hs.
      rewrite Hlp in Hs. simpl in Hs. rewrite Hf in Hs. simpl in Hs.
      split.
      * intros Hpos. rewrite Hpos in Hs. congruence.
      * intros Hpos lo Hlo. rewrite Hpos, Hlo in Hs. simpl in Hs. split.
        -- intros Hlt. rewrite Hlt in Hs. congruence.
        -- intros Hlt hi Hhi. rewrite Hlt, Hhi in Hs. simpl in Hs.
           destruct (gtb v hi); congruence.
Qed.

(** The last period is 1 against [2, 30]: the status is low. *)
Lemma dli_evaluation_witness :
  let self := sample_plant_dli "3" "1" in
  let self' := snd (update float_of_digits hass_empty self) in
  update float_of_digits hass_empty self = (Ok tt, self')
  /\ get_status ATTR_DLI self' = Some STATE_LOW.
Proof.
  intros self self'.
  assert (H : update float_of_digits hass_empty self = (Ok tt, self'))
    by (vm_compute; reflexivity).
  split; [exact H|].
  destruct (dli_evaluation float_of_digits hass_empty self self' H) as [_ Hd].
  destruct (Hd (sample_dli "3" "1") eq_refl eq_refl) as [_ Hl].
  destruct (Hl (PyStr "1") 1%float eq_refl eq_refl) as [_ Hp].
  destruct (Hp eq_refl 2%float eq_refl) as [Hlow _].
  exact (Hlow eq_refl).
Defined.

(** C2 as stated fails (scenario E): the last period is 0 against [2, 30]
    and no other metric has a reading.  The sensor still counts as a known
    reading: its status becomes ok and the state is [STATE_OK], not
    [STATE_UNKNOWN]. *)
Lemma dli_zero_last_period_is_known :
  let self := sample_plant_dli "3" "0" in
  let pass := update float_of_digits hass_empty self in
  (last_period (sample_dli "3" "0") ≫= py_float float_of_digits) = Ok 0%float
  /\ gtb 0 0 = false
  /\ forallb (fun m => negb (contributes hass_empty self m))
       [ATTR_MOISTURE; ATTR_CONDUCTIVITY; ATTR_TEMPERATURE; ATTR_HUMIDITY;
        ATTR_ILLUMINANCE] = true
  /\ fst pass = Ok tt
  /\ get_status ATTR_DLI self = None
  /\ get_status ATTR_DLI (snd pass) = Some STATE_OK
  /\ _attr_state (snd pass) = STATE_OK.
Proof. vm_compute. repeat split. Qed.

(** ** Statuses a pass can give, and calls *)

Section Outcomes.

Variable f : string -> option float.

Lemma compare_min_max_assigned value emin emax s :
  compare_min_max f value emin emax = Ok s -> status_assigned (Some s) = true.
Proof.
  unfold compare_min_max.
  destruct (py_float f value) as [v|]; [|discriminate]. simpl.
  destruct (threshold f emin) as [lo|]; [|discriminate]. simpl.
  destruct (PrimFloat.ltb v lo); [intros [= <-]; reflexivity|].
  destruct (threshold f emax) as [hi|]; [|discriminate]. simpl.
  destruct (gtb v hi); intros [= <-]; reflexivity.
Qed.

Lemma compare_max_high_or_ok value emax s :
  compare_max f value emax = Ok s -> s = STATE_HIGH \/ s = STATE_OK.
Proof.
  unfold compare_max.
  destruct (py_float f value) as [v|]; [|discriminate]. simpl.
  destruct (threshold f emax) as [hi|]; [|discriminate]. simpl.
  destruct (gtb v hi); intros [= <-]; auto.
Qed.

Lemma compare_dli_assigned d emin emax s :
  compare_dli f d emin emax = Ok s -> status_assigned (Some s) = true.
Proof.
  unfold compare_dli.
  destruct (last_period d) as [lp|]; [|discriminate]. simpl.
  destruct (py_float f lp) as [v|]; [|discriminate]. simpl.
  destruct (gtb v 0); [|intros [= <-]; reflexivity].
  destruct (threshold f emin) as [lo|]; [|discriminate]. simpl.
  destruct (PrimFloat.ltb v lo); [intros [= <-]; reflexivity|].
  destruct (threshold f emax) as [hi|]; [|discriminate]. simpl.
  destruct (gtb v hi); intros [= <-]; reflexivity.
Qed.

(** A pass gives no status but ok, low and high, and illuminance no low. *)
Lemma classified_assigned hass self m s :
  classified f hass self m = Some s ->
  status_assigned (Some s) = true /\ (m = ATTR_ILLUMINANCE -> s <> STATE_LOW).
Proof.
  unfold classified, verdict.
  destruct (contributes hass self m); [|discriminate].
  destruct m; cbn [sensor_of min_of max_of];
    [ destruct (sensor_moisture (sensors self))
    | destruct (sensor_conductivity (sensors self))
    | destruct (sensor_temperature (sensors self))
    | destruct (sensor_humidity (sensors self))
    | destruct (sensor_illuminance (sensors self))
    | destruct (dli self) ];
    try discriminate;
    match goal with
    | |- context [compare_min_max ?a ?b ?c ?d] =>
        destruct (compare_min_max a b c d) as [s0|] eqn:E
    | |- context [compare_max ?a ?b ?c] =>
        destruct (compare_max a b c) as [s0|] eqn:E
    | |- context [compare_dli ?a ?b ?c ?d] =>
        destruct (compare_dli a b c d) as [s0|] eqn:E
    end;
    try discriminate; intros [= <-];
    (split; [|try discriminate]);
    try (eapply compare_min_max_assigned; exact E);
    try (eapply compare_dli_assigned; exact E).
  - apply compare_max_high_or_ok in E as [-> | ->]; reflexivity.
  - intros _. apply compare_max_high_or_ok in E as [-> | ->]; discriminate.
Qed.

(** Whatever its outcome, a pass keeps the status of a metric or gives it
    the status of this pass. *)
Lemma update_status_cases hass self r self' m :
  update f hass self = (r, self') ->
  get_status m self' = get_status m self
  \/ exists s, classified f hass self m = Some s /\ get_status m self' = Some s.
Proof.
  rewrite update_blocks.
  destruct (blocks f hass all_metrics init_locals self) as [[l|e] d] eqn:Hb;
    intros H; inversion H; subst;
    rewrite ?get_status_finish;
    apply blocks_frame in Hb as (_ & _ & Hc); apply Hc.
Qed.

(** No call but [update] assigns a status. *)
Lemma run_call_statuses c self :
  (forall hass, c <> Call_update hass) ->
  statuses (run_call f c self) = statuses self.
Proof.
  destruct c; simpl; intros H; try reflexivity.
  - exfalso. apply (H hass). reflexivity.
  - unfold update_registry. run_M. destruct (_device_id self); reflexivity.
Qed.

(** A property of the device that every call keeps holds after any calls. *)
Lemma run_calls_invariant (P : PlantDevice -> Prop) calls :
  (forall c d, P d -> P (run_call f c d)) ->
  forall self, P self -> P (run_calls f calls self).
Proof.
  intros Hstep. unfold run_calls.
  induction calls as [|c calls IH]; intros self H; simpl; [exact H|].
  apply IH, Hstep, H.
Qed.

(** What a call does to the status of a metric. *)
Lemma run_call_status_cases c self m :
  get_status m (run_call f c self) = get_status m self
  \/ exists hass s, classified f hass self m = Some s
                    /\ get_status m (run_call f c self) = Some s.
Proof.
  destruct c as [| | | | | |hass|hass];
    try (left; unfold get_status; rewrite run_call_statuses;
         [reflexivity | intros ?; discriminate]).
  simpl. destruct (update f hass self) as [r self'] eqn:E. simpl.
  destruct (update_status_cases hass self r self' m E) as [|(s & ? & ?)];
    [left; assumption | right; exists hass, s; split; assumption].
Qed.

End Outcomes.

(** ** C3: moisture, conductivity, temperature and humidity *)

(** C3: for each of the four metrics with a reading that is the number
    [v], a pass of [update] that returned has set its status to low if [v]
    is below the minimum, to high if [v] is above the maximum, and to ok if
    [v] is between the minimum and the maximum.  The minimum is tested
    first: high is the status when the minimum is at most the maximum, as
    thresholds are, and also, whatever the thresholds, when [v] is not
    below the minimum. *)
Theorem general_metric_status (f : string -> option float)
  (hass : HomeAssistant) (m : metric) (self self' : PlantDevice)
  (sensor : Entity.t) (s : string) (v lo hi : float) :
  general m = true ->
  sensor_of m self = Some sensor ->
  states hass !! Entity.entity_id sensor = Some s ->
  s <> STATE_UNKNOWN -> s <> STATE_UNAVAILABLE ->
  f s = Some v ->
  threshold f (min_of m self) = Ok lo ->
  threshold f (max_of m self) = Ok hi ->
  update f hass self = (Ok tt, self') ->
  (PrimFloat.ltb v lo = true -> get_status m self' = Some STATE_LOW)
  /\ (gtb v hi = true -> PrimFloat.leb lo hi = true ->
      get_status m self' = Some STATE_HIGH)
  /\ (gtb v hi = true -> PrimFloat.ltb v lo = false ->
      get_status m self' = Some STATE_HIGH)
  /\ (PrimFloat.leb lo v = true -> PrimFloat.leb v hi = true ->
      get_status m self' = Some STATE_OK).
Proof.
  intros Hg Hs E H1 H2 Hv Hlo Hhi H.
  pose proof (verdict_general f hass m self sensor s Hg Hs E H1 H2) as Hvd.
  destruct (update_Ok_verdict f hass self self' _ _ H Hvd) as (st & Hst & ->).
  unfold compare_min_max in Hst. simpl in Hst.
  rewrite Hv in Hst. simpl in Hst. rewrite Hlo in Hst. simpl in Hst.
  assert (Hhigh : gtb v hi = true -> PrimFloat.ltb v lo = false ->
                  Some st = Some STATE_HIGH).
  { intros Hgt Hlt. rewrite Hlt, Hhi in Hst. simpl in Hst.
    rewrite Hgt in Hst. congruence. }
  split; [|split; [|split]].
  - intros Hlt. rewrite Hlt in Hst. congruence.
  - intros Hgt Hle. apply (Hhigh Hgt).
    apply (gtb_max_not_below_min v lo hi Hle Hgt).
  - exact Hhigh.
  - intros Hle1 Hle2.
    apply leb_not_gtb in Hle1, Hle2. unfold gtb in Hle1.
    rewrite Hle1, Hhi in Hst. simpl in Hst. rewrite Hle2 in Hst. congruence.
Qed.

(** Moisture against [20, 60]: reading 15 it is given low (scenario A),
    reading 70 it is given high. *)
Lemma general_metric_status_witness :
  let low := snd (update float_of_digits hass_moisture_15 (sample_plant None)) in
  let high := snd (update float_of_digits hass_moisture_70 (sample_plant None)) in
  PrimFloat.ltb 15 20 = true
  /\ get_status ATTR_MOISTURE low = Some STATE_LOW
  /\ gtb 70 60 = true /\ PrimFloat.leb 20 60 = true
  /\ get_status ATTR_MOISTURE high = Some STATE_HIGH.
Proof.
  intros low high.
  split; [reflexivity|]. split; [|split; [reflexivity|split; [reflexivity|]]].
  - refine (proj1 (general_metric_status float_of_digits hass_moisture_15
                     ATTR_MOISTURE (sample_plant None) low
                     (sample_meter "sensor.fern_moisture") "15" 15 20 60
                     eq_refl eq_refl eq_refl _ _ eq_refl eq_refl eq_refl _)
              eq_refl).
    + discriminate.
    + discriminate.
    + vm_compute. reflexivity.
  - refine (proj1 (proj2
              (general_metric_status float_of_digits hass_moisture_70
                 ATTR_MOISTURE (sample_plant None) high
                 (sample_meter "sensor.fern_moisture") "70" 70 20 60
                 eq_refl eq_refl eq_refl _ _ eq_refl eq_refl eq_refl _))
              eq_refl eq_refl).
    + discriminate.
    + discriminate.
    + vm_compute. reflexivity.
Defined.

(** Thresholds set the wrong way round, the minimum 30 above the maximum
    20: a reading of 25 is below the one and above the other, and the
    minimum, tested first, decides: the status is low. *)
Lemma above_max_but_low :
  let pass := update float_of_digits hass_moisture_25 swapped_plant in
  float_of_digits "25" = Some 25%float
  /\ threshold float_of_digits (max_moisture (thresholds swapped_plant))
     = Ok 20%float
  /\ gtb 25 20 = true
  /\ fst pass = Ok tt
  /\ get_status ATTR_MOISTURE (snd pass) = Some STATE_LOW.
Proof. vm_compute. repeat split. Qed.

(** ** C4: illuminance *)

(** C4: for a reading of illuminance that is the number [v], a pass of
    [update] that returned has set the status to high when [v] is above the
    maximum and to ok when [v] is at most the maximum; and no pass, whatever
    its outcome, and no other call on the device gives illuminance the
    status low: a device never has it. *)
Theorem illuminance_high_or_ok (f : string -> option float) :
  (forall hass self self' sensor s v hi,
      sensor_illuminance (sensors self) = Some sensor ->
      states hass !! Entity.entity_id sensor = Some s ->
      s <> STATE_UNKNOWN -> s <> STATE_UNAVAILABLE ->
      f s = Some v ->
      threshold f (max_illuminance (thresholds self)) = Ok hi ->
      update f hass self = (Ok tt, self') ->
      (gtb v hi = true ->
       get_status ATTR_ILLUMINANCE self' = Some STATE_HIGH)
      /\ (PrimFloat.leb v hi = true ->
          get_status ATTR_ILLUMINANCE self' = Some STATE_OK))
  /\ (forall hass self r self',
        update f hass self = (r, self') ->
        get_status ATTR_ILLUMINANCE self <> Some STATE_LOW ->
        get_status ATTR_ILLUMINANCE self' <> Some STATE_LOW)
  /\ (forall config generated_entity_id calls,
        get_status ATTR_ILLUMINANCE
          (run_calls f calls (__init__ config generated_entity_id))
        <> Some STATE_LOW).
Proof.
  split; [|split].
  - intros hass self self' sensor s v hi Hs E H1 H2 Hv Hhi H.
    pose proof (verdict_illuminance f hass self sensor s Hs E H1 H2) as Hvd.
    destruct (update_Ok_verdict f hass self self' _ _ H Hvd)
      as (st & Hst & ->).
    unfold compare_max in Hst. simpl in Hst.
    rewrite Hv in Hst. simpl in Hst. rewrite Hhi in Hst. simpl in Hst.
    split.
    + intros Hgt. rewrite Hgt in Hst. congruence.
    + intros Hle. apply leb_not_gtb in Hle. rewrite Hle in Hst. congruence.
  - intros hass self r self' H Hn.
    destruct (update_status_cases f hass self r self' ATTR_ILLUMINANCE H)
      as [-> | (s & Hc & ->)]; [exact Hn|].
    apply classified_assigned in Hc as [_ Hc]. specialize (Hc eq_refl).
    congruence.
  - intros config id calls.
    apply (run_calls_invariant f
             (fun d => get_status ATTR_ILLUMINANCE d <> Some STATE_LOW)).
    + intros c d Hd.
      destruct (run_call_status_cases f c d ATTR_ILLUMINANCE)
        as [-> | (hass & s & Hc & ->)]; [exact Hd|].
      apply classified_assigned in Hc as [_ Hc]. specialize (Hc eq_refl).
      congruence.
    + discriminate.
Qed.

(** Scenario D: illuminance reads 50000 against the maximum 40000; the
    status is high and, the trigger being on, the state is a problem. *)
Lemma illuminance_high_or_ok_witness :
  let self' :=
    snd (update float_of_digits hass_illuminance_50000 (sample_plant None)) in
  gtb 50000 40000 = true
  /\ get_status ATTR_ILLUMINANCE self' = Some STATE_HIGH
  /\ _attr_state self' = STATE_PROBLEM.
Proof.
  intros self'. split; [reflexivity|]. split; [|vm_compute; reflexivity].
  refine (proj1 (proj1 (illuminance_high_or_ok float_of_digits)
                   hass_illuminance_50000 (sample_plant None) self'
                   (sample_meter "sensor.fern_illuminance") "50000"
                   50000%float 40000%float
                   eq_refl eq_refl _ _ eq_refl eq_refl _) eq_refl).
  - discriminate.
  - discriminate.
  - vm_compute. reflexivity.
Defined.

(** ** C5: a metric without a reading *)

(** C5: when a metric has no reading (its sensor is not attached, or its
    value is absent, unknown or unavailable), its block in [update] returns
    with the local variables as they were, so the metric does not set
    [known_state], and the status of the metric after the call, whatever the
    outcome of the call, is the status it had before. *)
Theorem absent_reading_is_skipped (f : string -> option float)
  (hass : HomeAssistant) (self : PlantDevice) (m : metric) :
  absent hass self m ->
  (forall l, block_of f hass m l self = (Ok l, self))
  /\ get_status m (snd (update f hass self)) = get_status m self.
Proof.
  intros Ha. apply contributes_false_iff in Ha.
  split.
  - intros l. rewrite block_verdict.
    rewrite (proj2 (verdict_None f hass self m) Ha). reflexivity.
  - destruct (update f hass self) as [r self'] eqn:E. simpl.
    destruct (update_status_cases f hass self r self' m E)
      as [|(s & Hs & _)]; [assumption|].
    unfold classified in Hs.
    rewrite (proj2 (verdict_None f hass self m) Ha) in Hs. discriminate.
Qed.

(** Moisture was given low by a first pass and is unavailable in the next:
    it keeps the status low, and the state of that pass is unknown. *)
Lemma absent_reading_is_skipped_witness :
  let self :=
    snd (update float_of_digits hass_moisture_15 (sample_plant None)) in
  let self' := snd (update float_of_digits hass_moisture_unavailable self) in
  absent hass_moisture_unavailable self ATTR_MOISTURE
  /\ get_status ATTR_MOISTURE self' = Some STATE_LOW
  /\ _attr_state self' = UNKNOWN.
Proof.
  intros self self'.
  assert (Ha : absent hass_moisture_unavailable self ATTR_MOISTURE)
    by (right; right; reflexivity).
  split; [exact Ha|]. split; [|vm_compute; reflexivity].
  exact (eq_trans
           (proj2 (absent_reading_is_skipped float_of_digits
                     hass_moisture_unavailable self ATTR_MOISTURE Ha))
           eq_refl).
Defined.

(** ** C6: a breach with the trigger off *)

Section Problem.

Variable f : string -> option float.
Variable hass : HomeAssistant.

(** The state of a pass that returned is a problem exactly when a metric
    with a reading and its trigger on was given low or high. *)
Lemma update_problem_iff self self' :
  update f hass self = (Ok tt, self') ->
  _attr_state self' = STATE_PROBLEM <->
  exists m, contributes hass self m = true /\ trigger m self' = true
            /\ is_breach (get_status m self') = true.
Proof.
  intros H. rewrite <- (counted_breach_iff f hass self self' H).
  rewrite <- exists_metric. rewrite (update_Ok_state f hass self self' H).
  destruct (existsb (contributes hass self) all_metrics) eqn:Ex.
  - match goal with
    | |- context [existsb ?g all_metrics] => destruct (existsb g all_metrics)
    end; split; congruence.
  - split; [discriminate|]. intros Hb. exfalso.
    apply exists_metric in Hb as (m & Hm).
    apply andb_true_iff in Hm as [_ Hm].
    assert (E : contributes hass self m = false).
    { destruct (contributes hass self m) eqn:Em; [|reflexivity].
      rewrite <- Ex. symmetry. apply exists_metric. exists m. exact Em. }
    apply (proj2 (verdict_None f hass self m)) in E.
    unfold classified in Hm. rewrite E in Hm. discriminate.
Qed.

End Problem.

(** C6: a metric with a reading and its trigger off is still given its
    status by a pass of [update] that returned, low and high included; but
    when the state of that pass is a problem, another metric, with its
    trigger on, was given low or high; and when no other metric has a
    reading, the state is ok. *)
Theorem disabled_trigger_breach (f : string -> option float)
  (hass : HomeAssistant) (self self' : PlantDevice) (m : metric) :
  update f hass self = (Ok tt, self') ->
  contributes hass self m = true ->
  trigger m self = false ->
  (exists s, classified f hass self m = Some s /\ get_status m self' = Some s)
  /\ (_attr_state self' = STATE_PROBLEM ->
      exists m', m' <> m /\ contributes hass self m' = true
                 /\ trigger m' self' = true
                 /\ is_breach (get_status m' self') = true)
  /\ ((forall m', m' <> m -> contributes hass self m' = false) ->
      _attr_state self' = STATE_OK).
Proof.
  intros H Hc Ht.
  assert (Hp : _attr_state self' = STATE_PROBLEM ->
               exists m', m' <> m /\ contributes hass self m' = true
                          /\ trigger m' self' = true
                          /\ is_breach (get_status m' self') = true).
  { intros Hp. apply (update_problem_iff f hass self self' H) in Hp.
    destruct Hp as (m' & Hc' & Ht' & Hb'). exists m'.
    split; [|auto]. intros ->.
    rewrite (trigger_update f hass self _ self' m H) in Ht'. congruence. }
  split; [|split].
  - apply (update_Ok_classified f hass self self' m H Hc).
  - exact Hp.
  - intros Hothers.
    pose proof (update_Ok_state f hass self self' H) as Hst.
    assert (Ex : existsb (contributes hass self) all_metrics = true)
      by (apply exists_metric; exists m; exact Hc).
    rewrite Ex in Hst.
    destruct (existsb _ all_metrics); [|exact Hst].
    destruct (Hp Hst) as (m' & Hne & Hc' & _).
    rewrite (Hothers m' Hne) in Hc'. discriminate.
Qed.

(** Scenario B: moisture reads 15 against [20, 60] with its trigger off and
    nothing else has a reading; moisture is low and the state is ok. *)
Lemma disabled_trigger_breach_witness :
  let self := sample_plant (Some false) in
  let self' := snd (update float_of_digits hass_moisture_15 self) in
  trigger ATTR_MOISTURE self = false
  /\ get_status ATTR_MOISTURE self' = Some STATE_LOW
  /\ _attr_state self' = STATE_OK.
Proof.
  intros self self'.
  split; [reflexivity|]. split; [vm_compute; reflexivity|].
  refine (proj2 (proj2 (disabled_trigger_breach float_of_digits
                          hass_moisture_15 self self' ATTR_MOISTURE
                          _ eq_refl eq_refl)) _).
  - vm_compute. reflexivity.
  - intros m' Hne. destruct m'; try reflexivity. contradiction.
Defined.

(** ** C7: the two surfaces before the plant is complete *)

(** C7, as the code has it: while [plant_complete] is false, the attributes
    and the websocket response are empty, also as sent by the websocket
    handler; a new device is not complete; [add_dli] is the one call that
    sets [plant_complete], and it does so whatever has been attached; and
    once set it stays set through any calls. *)
Theorem surfaces_empty_until_add_dli (f : string -> option float) :
  (forall self,
      plant_complete self = false ->
      extra_state_attributes self = []
      /\ websocket_info f self = Ok []
      /\ forall key rest,
           ws_get_info f (Some ((key, Some self) :: rest)) (entity_id self)
           = send_result [])
  /\ (forall config generated_entity_id,
        plant_complete (__init__ config generated_entity_id) = false)
  /\ (forall c self,
        plant_complete (run_call f c self)
        = plant_complete self || is_add_dli c)
  /\ (forall calls self,
        plant_complete self = true ->
        plant_complete (run_calls f calls self) = true).
Proof.
  assert (Hstep : forall c self,
             plant_complete (run_call f c self)
             = plant_complete self || is_add_dli c).
  { intros c self. destruct c as [| | | | | |hass|hass]; simpl;
      rewrite ?orb_false_r, ?orb_true_r; try reflexivity.
    - destruct (update f hass self) as [r self'] eqn:E. simpl.
      rewrite update_blocks in E.
      destruct (blocks f hass all_metrics init_locals self)
        as [[l|e] d] eqn:Hb;
        inversion E; subst;
        apply blocks_frame in Hb as (Hs & _); rewrite Hs.
      + unfold finish. simpl. destruct (_device_id self); reflexivity.
      + reflexivity.
    - unfold update_registry. run_M. destruct (_device_id self); reflexivity. }
  split; [|split; [|split]].
  - intros self Hc. unfold extra_state_attributes, websocket_info, ws_get_info.
    cbn [ws_find]. unfold websocket_info. rewrite Hc, String.eqb_refl.
    repeat split.
  - reflexivity.
  - exact Hstep.
  - intros calls.
    apply (run_calls_invariant f (fun d => plant_complete d = true)).
    intros c d Hd. rewrite Hstep, Hd. reflexivity.
Qed.

(** The sample plant has its thresholds and meters but no integral sensor
    yet: both surfaces are empty. *)
Lemma surfaces_empty_until_add_dli_witness :
  plant_complete (sample_plant None) = false
  /\ extra_state_attributes (sample_plant None) = []
  /\ websocket_info float_of_digits (sample_plant None) = Ok [].
Proof.
  split; [reflexivity|].
  destruct (proj1 (surfaces_empty_until_add_dli float_of_digits)
              (sample_plant None) eq_refl) as (Ha & Hw & _).
  split; [exact Ha | exact Hw].
Defined.

(** C7 as stated fails: after [add_dli] alone the device has none of its
    thresholds and none of its meters, yet it is complete; the attributes
    are the full dictionary and the websocket response is an
    [AttributeError] rather than empty. *)
Lemma complete_without_thresholds :
  forallb (fun m => match min_of m dli_only_plant, max_of m dli_only_plant with
                    | None, None => true
                    | _, _ => false
                    end) all_metrics = true
  /\ plant_complete dli_only_plant = true
  /\ length (extra_state_attributes dli_only_plant) = 8%nat
  /\ websocket_info float_of_digits dli_only_plant = Raise AttributeError
  /\ ws_get_info float_of_digits (Some [("entry-1", Some dli_only_plant)])
       "plant.fern" = uncaught AttributeError.
Proof. vm_compute. repeat split. Qed.

(** ** C8: a reading that is no number *)




(** ** C9: the same readings again *)

Lemma finish_finish hass l d : finish hass l (finish hass l d) = finish hass l d.
Proof.
  unfold finish. simpl. destruct (_device_id d) eqn:E; simpl.
  - rewrite E. reflexivity.
  - reflexivity.
Qed.

Lemma statuses_finish hass l d : statuses (finish hass l d) = statuses d.
Proof. unfold finish. simpl. destruct (_device_id d); reflexivity. Qed.

(** C9: [update] called again with the same readings, thresholds and
    triggers has the outcome of the first call and leaves the device as the
    first call left it: the same statuses and the same state. *)
Theorem update_idempotent (f : string -> option float) (hass : HomeAssistant)
  (self : PlantDevice) :
  update f hass (snd (update f hass self)) = update f hass self.
Proof.
  rewrite (update_blocks f hass self).
  destruct (blocks f hass all_metrics init_locals self) as [[l|e] d] eqn:Hb;
    simpl; rewrite update_blocks.
  - rewrite (blocks_again f hass all_metrics init_locals self (Ok l) d
               (finish hass l d) Hb
               (same_inputs_finish hass l d) (statuses_finish hass l d)).
    rewrite finish_finish. reflexivity.
  - assert (Hd : same_inputs d d) by (repeat split).
    rewrite (blocks_again f hass all_metrics init_locals self (Raise e) d d
               Hb Hd eq_refl).
    reflexivity.
Qed.

(** ** C10: statuses stay, the state is assigned anew *)

(** C10: a status that is ok, low or high is still one of the three after
    any calls on the device, so it is never back to unset; and every call of
    [update] that returns has assigned the state one of ok, problem and
    unknown. *)
Theorem statuses_are_sticky (f : string -> option float) :
  (forall calls self m,
      status_assigned (get_status m self) = true ->
      status_assigned (get_status m (run_calls f calls self)) = true)
  /\ (forall hass self self',
        update f hass self = (Ok tt, self') ->
        aggregate_state (_attr_state self') = true).
Proof.
  split.
  - intros calls self m.
    apply (run_calls_invariant f
             (fun d => status_assigned (get_status m d) = true)).
    intros c d Hd.
    destruct (run_call_status_cases f c d m) as [-> | (hass & s & Hc & ->)];
      [exact Hd|].
    apply (classified_assigned f hass d m s Hc).
  - intros hass self self' H.
    rewrite (update_Ok_state f hass self self' H).
    destruct (existsb (contributes hass self) all_metrics); [|reflexivity].
    match goal with
    | |- context [existsb ?g all_metrics] => destruct (existsb g all_metrics)
    end; reflexivity.
Qed.

(** Moisture is given low by a first pass; the integral sensor is then
    attached, the picture changed, and two more passes run without a
    reading of moisture: the status is still low, and the state of the last
    pass is unknown. *)
Lemma statuses_are_sticky_witness :
  let self :=
    snd (update float_of_digits hass_moisture_15 (sample_plant None)) in
  let calls :=
    [Call_add_dli None; Call_add_image (Some "/local/fern.jpg");
     Call_update hass_moisture_unavailable; Call_update hass_empty] in
  get_status ATTR_MOISTURE self = Some STATE_LOW
  /\ status_assigned
       (get_status ATTR_MOISTURE (run_calls float_of_digits calls self)) = true
  /\ _attr_state (run_calls float_of_digits calls self) = UNKNOWN.
Proof.
  intros self calls.
  split; [vm_compute; reflexivity|]. split; [|vm_compute; reflexivity].
  refine (proj1 (statuses_are_sticky float_of_digits) calls self
            ATTR_MOISTURE _).
  vm_compute. reflexivity.
Defined.

(** ** A pass returns *)

Lemma known_reading_inv hass id :
  is_known (states_get_state hass id) = true ->
  exists s, states hass !! id = Some s
            /\ s <> STATE_UNKNOWN /\ s <> STATE_UNAVAILABLE.
Proof.
  unfold states_get_state, is_known.
  destruct (states hass !! id) as [s|]; [|discriminate]. simpl.
  destruct (String.eqb_spec s STATE_UNKNOWN); [discriminate|].
  destruct (String.eqb_spec s STATE_UNAVAILABLE); [discriminate|].
  intros _. exists s. auto.
Qed.

Lemma compare_min_max_returns f s v lo hi emin emax :
  f s = Some v -> threshold f emin = Ok lo -> threshold f emax = Ok hi ->
  exists st, compare_min_max f (PyStr s) emin emax = Ok st.
Proof.
  intros Hv Hlo Hhi. unfold compare_min_max. simpl.
  rewrite Hv. simpl. rewrite Hlo. simpl.
  destruct (PrimFloat.ltb v lo); [eexists; reflexivity|].
  rewrite Hhi. simpl. destruct (gtb v hi); eexists; reflexivity.
Qed.

Lemma compare_max_returns f s v hi emax :
  f s = Some v -> threshold f emax = Ok hi ->
  exists st, compare_max f (PyStr s) emax = Ok st.
Proof.
  intros Hv Hhi. unfold compare_max. simpl.
  rewrite Hv. simpl. rewrite Hhi. simpl.
  destruct (gtb v hi); eexists; reflexivity.
Qed.

(** [update] returns on every device all of whose readings can be
    evaluated: no reading that is absent, unknown or unavailable makes it
    raise. *)
Theorem update_total (f : string -> option float) (hass : HomeAssistant)
  (self : PlantDevice) :
  readable f hass self ->
  exists self', update f hass self = (Ok tt, self').
Proof.
  intros [Hm Hd]. apply update_returns. intros m e Hv.
  unfold verdict in Hv.
  destruct (contributes hass self m) eqn:Hc; [|discriminate].
  destruct (decide (m = ATTR_DLI)) as [->|Hne].
  - unfold contributes in Hc.
    destruct (dli self) as [d|] eqn:Ed; [|discriminate].
    destruct (Hd d eq_refl Hc)
      as ((lp & v & Hlp & Hf) & (lo & Hlo) & (hi & Hhi)).
    simpl in Hv. unfold compare_dli in Hv.
    rewrite Hlp in Hv. simpl in Hv. rewrite Hf in Hv. simpl in Hv.
    destruct (gtb v 0); [|discriminate].
    rewrite Hlo in Hv. simpl in Hv.
    destruct (PrimFloat.ltb v lo); [discriminate|].
    rewrite Hhi in Hv. simpl in Hv. destruct (gtb v hi); discriminate.
  - assert (Hs : exists sensor, sensor_of m self = Some sensor
                 /\ is_known (states_get_state hass (Entity.entity_id sensor))
                    = true).
    { unfold contributes in Hc.
      destruct (sensor_of m self) as [sensor|];
        [exists sensor; destruct m; auto; contradiction|].
      destruct m; discriminate || contradiction. }
    destruct Hs as (sensor & Hs & Hk).
    destruct (known_reading_inv hass _ Hk) as (s & E & H1 & H2).
    destruct (Hm m sensor s Hne Hs E H1 H2)
      as ((v & Hf) & (lo & Hlo) & (hi & Hhi)).
    assert (Hval : states_get_state hass (Entity.entity_id sensor) = PyStr s)
      by (unfold states_get_state; rewrite E; reflexivity).
    rewrite Hs, Hval in Hv.
    destruct m; try contradiction; cbv beta iota in Hv;
      try (destruct (compare_min_max_returns f s v lo hi _ _ Hf Hlo Hhi)
             as (st & Hst);
           rewrite Hst in Hv; discriminate).
    destruct (compare_max_returns f s v hi _ Hf Hhi) as (st & Hst).
    rewrite Hst in Hv. discriminate.
Qed.

(** The sample plant with moisture reading 15 can be evaluated. *)
Lemma update_total_witness :
  readable float_of_digits hass_moisture_15 (sample_plant None)
  /\ exists self',
       update float_of_digits hass_moisture_15 (sample_plant None)
       = (Ok tt, self').
Proof.
  assert (H : readable float_of_digits hass_moisture_15 (sample_plant None)).
  { split.
    - intros m sensor s Hne Hs E _ _.
      destruct m; try contradiction;
        injection Hs as <-; vm_compute in E; try discriminate E.
      injection E as <-.
      repeat split; eexists; reflexivity.
    - intros d Hd. discriminate Hd. }
  split; [exact H|].
  exact (update_total float_of_digits hass_moisture_15 (sample_plant None) H).
Defined.

(** * More of the component *)

(** ** What a pass depends on *)

Section Dependence.

Variable f : string -> option float.
Variable hass : HomeAssistant.

Lemma contributes_same_entities a b m :
  same_entities a b -> contributes hass a m = contributes hass b m.
Proof.
  intros (_ & Hs & Hd). unfold contributes, sensor_of.
  rewrite Hs, Hd. reflexivity.
Qed.

Lemma verdict_same_entities a b m :
  same_entities a b -> verdict f hass a m = verdict f hass b m.
Proof.
  intros H. unfold verdict. rewrite (contributes_same_entities a b m H).
  destruct H as (Ht & Hs & Hd).
  unfold sensor_of, min_of, max_of. rewrite Ht, Hs, Hd. reflexivity.
Qed.

Lemma classified_same_entities a b m :
  same_entities a b -> classified f hass a m = classified f hass b m.
Proof.
  intros H. unfold classified. rewrite (verdict_same_entities a b m H).
  reflexivity.
Qed.

Lemma existsb_pointwise {A : Type} (p q : A -> bool) (l : list A) :
  (forall x, p x = q x) -> existsb p l = existsb q l.
Proof.
  intros H. induction l as [|x l IH]; simpl; [reflexivity|].
  rewrite H, IH. reflexivity.
Qed.

Lemma statuses_assign a b m v :
  statuses a = statuses b ->
  statuses (assign_status m v a) = statuses (assign_status m v b).
Proof. intros H. unfold assign_status. simpl. rewrite H. reflexivity. Qed.

(** The blocks on two devices with the same entities come to the same
    outcome, and to the same statuses when they start from the same. *)
Lemma blocks_same_entities ms : forall la lb a b,
  same_entities a b ->
  same_outcome (fst (blocks f hass ms la a)) (fst (blocks f hass ms lb b))
  /\ (statuses a = statuses b ->
      statuses (snd (blocks f hass ms la a))
      = statuses (snd (blocks f hass ms lb b))).
Proof.
  induction ms as [|m0 ms IH]; intros la lb a b H.
  - simpl. split; [exact I | auto].
  - rewrite !blocks_cons. rewrite <- (verdict_same_entities a b m0 H).
    destruct (verdict f hass a m0) as [[s|e]|].
    + assert (H' : same_entities (assign_status m0 (Some s) a)
                                 (assign_status m0 (Some s) b)) by exact H.
      destruct (IH (after_status m0 a s la) (after_status m0 b s lb) _ _ H')
        as [Ho Hs].
      split; [exact Ho|]. intros E. apply Hs, statuses_assign, E.
    + simpl. split; [reflexivity | auto].
    + apply IH, H.
Qed.

Lemma update_same_entities a b :
  same_entities a b ->
  same_outcome (fst (update f hass a)) (fst (update f hass b))
  /\ (statuses a = statuses b ->
      statuses (snd (update f hass a)) = statuses (snd (update f hass b))).
Proof.
  intros H.
  destruct (blocks_same_entities all_metrics init_locals init_locals a b H)
    as [Ho Hs].
  rewrite !update_blocks.
  destruct (blocks f hass all_metrics init_locals a) as [[la|ea] a'];
    destruct (blocks f hass all_metrics init_locals b) as [[lb|eb] b'];
    simpl in *; try contradiction.
  - split; [exact I|]. rewrite !statuses_finish. exact Hs.
  - split; [exact Ho | exact Hs].
Qed.

Lemma same_outcome_unit (ra rb : result unit) : same_outcome ra rb -> ra = rb.
Proof.
  destruct ra as [[]|], rb as [[]|]; simpl; intros H;
    try contradiction; congruence.
Qed.

End Dependence.

(** The state of a pass does not depend on what the device held before:
    two devices with the same entities and the same configuration, whatever
    their statuses, states and other attributes, get the same outcome from
    [update]; when it returns they get the same state, and every metric
    with a reading gets the same status. *)
Theorem update_forgets_history (f : string -> option float)
  (hass : HomeAssistant) (a b : PlantDevice) :
  same_inputs a b ->
  fst (update f hass a) = fst (update f hass b)
  /\ (fst (update f hass a) = Ok tt ->
      _attr_state (snd (update f hass a)) = _attr_state (snd (update f hass b))
      /\ forall m, contributes hass a m = true ->
                   get_status m (snd (update f hass a))
                   = get_status m (snd (update f hass b))).
Proof.
  intros H.
  assert (He : same_entities a b).
  { destruct H as (_ & ? & ? & ?). repeat split; assumption. }
  destruct (update_same_entities f hass a b He) as [Ho _].
  apply same_outcome_unit in Ho. split; [exact Ho|].
  intros Ha. rewrite Ho in Ha.
  destruct (update f hass a) as [ra a'] eqn:Ea.
  destruct (update f hass b) as [rb b'] eqn:Eb.
  simpl in *. subst.
  split.
  - rewrite (update_Ok_state f hass a a' Ea), (update_Ok_state f hass b b' Eb).
    assert (E1 : existsb (contributes hass a) all_metrics
                 = existsb (contributes hass b) all_metrics).
    { apply existsb_pointwise. intros m. apply contributes_same_inputs, H. }
    assert (E2 : existsb (fun m => trigger m a
                                   && is_breach (classified f hass a m))
                   all_metrics
                 = existsb (fun m => trigger m b
                                     && is_breach (classified f hass b m))
                     all_metrics).
    { apply existsb_pointwise. intros m.
      rewrite (trigger_same_inputs a b m H),
        (classified_same_entities f hass a b m He). reflexivity. }
    rewrite E1, E2. reflexivity.
  - intros m Hc.
    destruct (update_Ok_classified f hass a a' m Ea Hc) as (s & Hs & ->).
    rewrite (contributes_same_inputs hass a b m H) in Hc.
    destruct (update_Ok_classified f hass b b' m Eb Hc) as (s' & Hs' & ->).
    rewrite (classified_same_entities f hass a b m He) in Hs. congruence.
Qed.

(** A new plant and one that an earlier pass left with illuminance high and
    the state a problem get the same state from a pass in which only
    moisture has a reading. *)
Lemma update_forgets_history_witness :
  same_inputs (sample_plant None) plant_with_history
  /\ _attr_state (sample_plant None) = UNKNOWN
  /\ _attr_state plant_with_history = STATE_PROBLEM
  /\ _attr_state (snd (update float_of_digits hass_moisture_15
                         (sample_plant None)))
     = _attr_state (snd (update float_of_digits hass_moisture_15
                           plant_with_history)).
Proof.
  assert (H : same_inputs (sample_plant None) plant_with_history)
    by (repeat split).
  split; [exact H|]. split; [reflexivity|].
  split; [vm_compute; reflexivity|].
  refine (proj1 (proj2 (update_forgets_history float_of_digits
                          hass_moisture_15 (sample_plant None)
                          plant_with_history H) _)).
  vm_compute. reflexivity.
Defined.

(** The triggers gate the state and nothing else: on two devices with the
    same entities and statuses, where every trigger that is on in the second
    is on in the first, [update] has the same outcome and leaves the same
    statuses; when it returns, a problem on the second is a problem on the
    first, and the state is unknown on both or on neither. *)
Theorem triggers_only_gate_the_state (f : string -> option float)
  (hass : HomeAssistant) (a b : PlantDevice) :
  same_entities a b ->
  statuses a = statuses b ->
  (forall m, trigger m b = true -> trigger m a = true) ->
  fst (update f hass a) = fst (update f hass b)
  /\ statuses (snd (update f hass a)) = statuses (snd (update f hass b))
  /\ (fst (update f hass b) = Ok tt ->
      (_attr_state (snd (update f hass b)) = STATE_PROBLEM ->
       _attr_state (snd (update f hass a)) = STATE_PROBLEM)
      /\ (_attr_state (snd (update f hass a)) = UNKNOWN <->
          _attr_state (snd (update f hass b)) = UNKNOWN)).
Proof.
  intros He Hst Ht.
  destruct (update_same_entities f hass a b He) as [Ho Hs].
  apply same_outcome_unit in Ho.
  split; [exact Ho|]. split; [exact (Hs Hst)|].
  intros Hb. rewrite <- Ho in Hb.
  destruct (update f hass a) as [ra a'] eqn:Ea.
  destruct (update f hass b) as [rb b'] eqn:Eb.
  simpl in *. subst.
  rewrite (update_Ok_state f hass a a' Ea), (update_Ok_state f hass b b' Eb).
  rewrite (existsb_pointwise (contributes hass a) (contributes hass b)
             all_metrics (fun m => contributes_same_entities hass a b m He)).
  destruct (existsb (contributes hass b) all_metrics);
    [|split; [discriminate | tauto]].
  split.
  - destruct (existsb (fun m => trigger m b && _) all_metrics) eqn:Exb;
      [|discriminate].
    intros _. apply exists_metric in Exb as (m & Hm).
    apply andb_true_iff in Hm as [Hm1 Hm2].
    assert (Exa : existsb (fun m => trigger m a
                                    && is_breach (classified f hass a m))
                    all_metrics = true).
    { apply exists_metric. exists m. rewrite (Ht m Hm1).
      rewrite (classified_same_entities f hass a b m He). exact Hm2. }
    rewrite Exa. reflexivity.
  - split; intros E; exfalso;
      repeat match type of E with
             | (if ?c then _ else _) = _ => destruct c
             end; discriminate.
Qed.

(** Scenarios A and B side by side: moisture reads 15 against [20, 60];
    with the trigger on the state is a problem, with it off the state is
    ok, and moisture is low in both. *)
Lemma triggers_only_gate_the_state_witness :
  let a := sample_plant None in
  let b := sample_plant (Some false) in
  statuses (snd (update float_of_digits hass_moisture_15 a))
  = statuses (snd (update float_of_digits hass_moisture_15 b))
  /\ _attr_state (snd (update float_of_digits hass_moisture_15 a))
     = STATE_PROBLEM
  /\ _attr_state (snd (update float_of_digits hass_moisture_15 b)) = STATE_OK.
Proof.
  intros a b.
  split; [|split; vm_compute; reflexivity].
  refine (proj1 (proj2 (triggers_only_gate_the_state float_of_digits
                          hass_moisture_15 a b _ eq_refl _))).
  - repeat split.
  - intros m _. destruct m; reflexivity.
Defined.

(** ** The device id, the configuration and the values of the states *)

Section Frame.

Variable f : string -> option float.

(** What [update] leaves of the device id, by its outcome. *)
Lemma device_id_update hass self r self' :
  update f hass self = (r, self') ->
  _device_id self' =
  match r, _device_id self with
  | Ok _, None => Some (device_registry hass (entry_id (_config self)))
  | _, old => old
  end.
Proof.
  rewrite update_blocks.
  destruct (blocks f hass all_metrics init_locals self) as [[l|e] d] eqn:Hb;
    intros H; inversion H; subst;
    apply blocks_frame in Hb as (Hs & _);
    pose proof (f_equal _device_id Hs) as Hi;
    pose proof (f_equal _config Hs) as Hc; simpl in Hi, Hc.
  - unfold finish. simpl. rewrite Hi, Hc.
    destruct (_device_id self); simpl; [exact Hi | reflexivity].
  - exact Hi.
Qed.

(** What [update] leaves of the state: the state it had, when it raises. *)
Lemma attr_state_update_Raise hass self e self' :
  update f hass self = (Raise e, self') -> _attr_state self' = _attr_state self.
Proof.
  intros H. apply update_Raise_inv in H.
  apply blocks_frame in H as (Hs & _). rewrite Hs. reflexivity.
Qed.

Lemma attr_state_update_Ok hass self self' :
  update f hass self = (Ok tt, self') -> aggregate_state (_attr_state self') = true.
Proof.
  intros H. rewrite (update_Ok_state f hass self self' H).
  destruct (existsb (contributes hass self) all_metrics); [|reflexivity].
  match goal with
  | |- context [existsb ?g all_metrics] => destruct (existsb g all_metrics)
  end; reflexivity.
Qed.

End Frame.

(** The device id is assigned once: a call of [update] that returns leaves
    the id the device had, or the id the registry gives it when it had
    none; a call that raises assigns none; and an id, once assigned, is the
    id of the device after any calls, whatever the registries then say. *)
Theorem device_id_is_assigned_once (f : string -> option float) :
  (forall hass self self',
      update f hass self = (Ok tt, self') ->
      device_id self' =
      Some (match device_id self with
            | Some id => id
            | None => device_registry hass (entry_id (_config self))
            end))
  /\ (forall hass self e self',
        update f hass self = (Raise e, self') ->
        device_id self' = device_id self)
  /\ (forall calls self id,
        device_id self = Some id ->
        device_id (run_calls f calls self) = Some id).
Proof.
  unfold device_id. split; [|split].
  - intros hass self self' H. rewrite (device_id_update f hass self _ self' H).
    destruct (_device_id self); reflexivity.
  - intros hass self e self' H.
    rewrite (device_id_update f hass self _ self' H).
    destruct (_device_id self); reflexivity.
  - intros calls self id.
    apply (run_calls_invariant f (fun d => _device_id d = Some id)).
    intros c d Hd. destruct c as [| | | | | |hass|hass]; simpl; try exact Hd.
    + destruct (update f hass d) as [r d'] eqn:E. simpl.
      rewrite (device_id_update f hass d r d' E), Hd.
      destruct r; reflexivity.
    + unfold update_registry. run_M. rewrite Hd. exact Hd.
Qed.

(** A first pass registers the sample plant as "device-1"; a later pass
    against a registry that would say "device-2" leaves that id. *)
Lemma device_id_is_assigned_once_witness :
  let self := snd (update float_of_digits hass_moisture_15 (sample_plant None)) in
  let other :=
    {| states := ∅; device_registry := fun _ => "device-2" |} in
  device_id (sample_plant None) = None
  /\ device_id self = Some "device-1"
  /\ device_id (run_calls float_of_digits
                  [Call_update other; Call_update_registry other] self)
     = Some "device-1".
Proof.
  intros self other.
  assert (H : device_id self = Some "device-1") by (vm_compute; reflexivity).
  split; [reflexivity|]. split; [exact H|].
  exact (proj2 (proj2 (device_id_is_assigned_once float_of_digits))
           [Call_update other; Call_update_registry other] self "device-1" H).
Defined.

(** [update], whatever its outcome, assigns nothing but the statuses, the
    state and the device id: the configuration, the identity, the picture,
    the species, the completeness and every attached entity are as they
    were. *)
Theorem update_keeps_configuration (f : string -> option float)
  (hass : HomeAssistant) (self : PlantDevice) :
  let self' := snd (update f hass self) in
  _config self' = _config self
  /\ entity_id self' = entity_id self
  /\ _attr_entity_picture self' = _attr_entity_picture self
  /\ species self' = species self
  /\ display_species self' = display_species self
  /\ plant_complete self' = plant_complete self
  /\ thresholds self' = thresholds self
  /\ sensors self' = sensors self
  /\ dli self' = dli self
  /\ ppfd self' = ppfd self
  /\ total_integral self' = total_integral self.
Proof.
  intros self'. subst self'. rewrite update_blocks.
  destruct (blocks f hass all_metrics init_locals self) as [[l|e] d] eqn:Hb;
    apply blocks_frame in Hb as (Hs & _); simpl; rewrite Hs.
  - unfold finish. simpl. destruct (_device_id self); repeat split.
  - repeat split.
Qed.

(** On a device made by [__init__] and any calls, the state is one of ok,
    problem and unknown, and the status of every metric is unset or one of
    ok, low and high. *)
Theorem reachable_states (f : string -> option float)
  (config : ConfigEntry) (generated_entity_id : string) (calls : list call) :
  let self := run_calls f calls (__init__ config generated_entity_id) in
  aggregate_state (_attr_state self) = true
  /\ forall m, get_status m self = None
               \/ status_assigned (get_status m self) = true.
Proof.
  apply (run_calls_invariant f
           (fun d => aggregate_state (_attr_state d) = true
                     /\ forall m, get_status m d = None
                                  \/ status_assigned (get_status m d) = true)).
  - intros c d [Hst Hm]. split.
    + destruct c as [| | | | | |hass|hass]; simpl; try exact Hst.
      * destruct (update f hass d) as [[[]|e] d'] eqn:E; simpl.
        -- apply (attr_state_update_Ok f hass d d' E).
        -- rewrite (attr_state_update_Raise f hass d e d' E). exact Hst.
      * unfold update_registry. run_M. destruct (_device_id d); exact Hst.
    + intros m.
      destruct (run_call_status_cases f c d m) as [-> | (hass & s & Hc & ->)];
        [apply Hm|].
      right. apply (classified_assigned f hass d m s Hc).
  - split; [reflexivity|]. intros m. left. destruct m; reflexivity.
Qed.

(** ** Thresholds that are missing *)

(** The thresholds are read lazily, in the order of the comparisons.  For
    one of the four metrics with a reading that is the number [v]: without
    a minimum the block raises an [AttributeError] and assigns nothing, and
    so [update] raises; with [v] below the minimum the block gives low
    whatever the maximum is, attached or not; with [v] not below the minimum
    and no maximum the block raises an [AttributeError]. *)
Theorem missing_threshold_raises (f : string -> option float)
  (hass : HomeAssistant) (m : metric) (self : PlantDevice)
  (sensor : Entity.t) (s : string) (v : float) (l : locals) :
  general m = true ->
  sensor_of m self = Some sensor ->
  states hass !! Entity.entity_id sensor = Some s ->
  s <> STATE_UNKNOWN -> s <> STATE_UNAVAILABLE ->
  f s = Some v ->
  (min_of m self = None ->
   check_min_max f hass m l self = (Raise AttributeError, self)
   /\ exists e self', update f hass self = (Raise e, self'))
  /\ (forall lo,
        threshold f (min_of m self) = Ok lo -> PrimFloat.ltb v lo = true ->
        check_min_max f hass m l self
        = (Ok (flag_problem m self (set_known l)),
           assign_status m (Some STATE_LOW) self))
  /\ (forall lo,
        threshold f (min_of m self) = Ok lo -> PrimFloat.ltb v lo = false ->
        max_of m self = None ->
        check_min_max f hass m l self = (Raise AttributeError, self)).
Proof.
  intros Hg Hs E H1 H2 Hv.
  pose proof (verdict_general f hass m self sensor s Hg Hs E H1 H2) as Hvd.
  rewrite (check_min_max_verdict f hass m l self Hg), Hvd.
  unfold compare_min_max. simpl. rewrite Hv. simpl.
  split; [|split].
  - intros Hmin.
    assert (Hr : compare_min_max f (PyStr s) (min_of m self) (max_of m self)
                 = Raise AttributeError).
    { unfold compare_min_max. simpl. rewrite Hv, Hmin. reflexivity. }
    rewrite Hmin. simpl. split; [reflexivity|].
    rewrite Hr in Hvd.
    destruct (update f hass self) as [[[]|e] self'] eqn:Hu.
    + destruct (update_Ok_verdict f hass self self' _ _ Hu Hvd) as (? & ? & _).
      discriminate.
    + exists e, self'. reflexivity.
  - intros lo Hlo Hlt. rewrite Hlo. simpl. rewrite Hlt. reflexivity.
  - intros lo Hlo Hlt Hmax. rewrite Hlo. simpl. rewrite Hlt, Hmax. reflexivity.
Qed.

(** Moisture reads 15 and the plant has no threshold attached: the block
    of moisture raises an [AttributeError]. *)
Lemma missing_threshold_raises_witness :
  check_min_max float_of_digits hass_moisture_15 ATTR_MOISTURE init_locals
    plant_without_thresholds
  = (Raise AttributeError, plant_without_thresholds).
Proof.
  refine (proj1 (proj1 (missing_threshold_raises float_of_digits
                          hass_moisture_15 ATTR_MOISTURE
                          plant_without_thresholds
                          (sample_meter "sensor.fern_moisture") "15" 15
                          init_locals eq_refl eq_refl eq_refl _ _ eq_refl)
                   eq_refl)); discriminate.
Defined.

(** The value of the last period of the integral sensor is read before its
    thresholds.  When the sensor has a value: without the key "last_period"
    in its attributes the block raises a [KeyError] and assigns nothing;
    with a last period that is not above 0 the block gives ok without
    reading any threshold; with a last period above 0 and no minimum the
    block raises an [AttributeError]. *)
Theorem dli_last_period_is_read_first (f : string -> option float)
  (self : PlantDevice) (d : Entity.t) (l : locals) :
  dli self = Some d ->
  dli_guard d = true ->
  (Entity.extra_state_attributes d !! "last_period" = None ->
   check_dli f l self = (Raise KeyError, self))
  /\ (forall lp v,
        last_period d = Ok lp -> py_float f lp = Ok v -> gtb v 0 = false ->
        check_dli f l self
        = (Ok (set_known l), assign_status ATTR_DLI (Some STATE_OK) self))
  /\ (forall lp v,
        last_period d = Ok lp -> py_float f lp = Ok v -> gtb v 0 = true ->
        min_dli (thresholds self) = None ->
        check_dli f l self = (Raise AttributeError, self)).
Proof.
  intros Hd Hg.
  rewrite (check_dli_verdict f hass_empty l self).
  rewrite (verdict_dli f hass_empty self d Hd Hg).
  unfold compare_dli.
  split; [|split].
  - intros Hk. unfold last_period, getitem. rewrite Hk. reflexivity.
  - intros lp v Hlp Hf Hpos. rewrite Hlp. simpl. rewrite Hf. simpl.
    rewrite Hpos. reflexivity.
  - intros lp v Hlp Hf Hpos Hmin. rewrite Hlp. simpl. rewrite Hf. simpl.
    rewrite Hpos, Hmin. reflexivity.
Qed.

(** An integral sensor with the state 3 and no last period among its
    attributes: the block raises a [KeyError]. *)
Lemma dli_last_period_is_read_first_witness :
  check_dli float_of_digits init_locals
    (add_dli (Some dli_without_last_period) (sample_plant None))
  = (Raise KeyError,
     add_dli (Some dli_without_last_period) (sample_plant None)).
Proof.
  exact (proj1 (dli_last_period_is_read_first float_of_digits
                  (add_dli (Some dli_without_last_period) (sample_plant None))
                  dli_without_last_period init_locals eq_refl eq_refl)
           eq_refl).
Defined.

(** ** The websocket response *)

Ltac run_R := unfold mbind, mret, result_bind, result_ret in *.

Lemma truthy_or_unavailable x : truthy (or_unavailable x) = true.
Proof.
  unfold or_unavailable. destruct (truthy x) eqn:E; [exact E | reflexivity].
Qed.

Section Response.

Variable f : string -> option float.

Lemma py_float_raises_ValueError v e :
  truthy v && py_ne_str v STATE_UNKNOWN = true ->
  py_float f v = Raise e -> e = ValueError.
Proof.
  destruct v as [|s|x]; simpl; try discriminate.
  destruct (f s); congruence.
Qed.

Lemma websocket_info_missing self :
  plant_complete self = true -> fully_attached self = false ->
  websocket_info f self = Raise AttributeError.
Proof.
  intros Hc Ha. unfold websocket_info. rewrite Hc. simpl.
  destruct self as [cfg id pic sp dsp pc dev
                      [xm nm xt nt xc nc xi ni xh nh xd nd]
                      [sm st sc si sh] d pp ti stt ast].
  unfold fully_attached, threshold_entities, meter_entities in Ha.
  unfold meter_info, dli_info, dot. run_R. simpl in *.
  destruct xt; [|reflexivity]. destruct nt; [|reflexivity].
  destruct st; [|reflexivity].
  destruct xi; [|reflexivity]. destruct ni; [|reflexivity].
  destruct si; [|reflexivity].
  destruct xm; [|reflexivity]. destruct nm; [|reflexivity].
  destruct sm; [|reflexivity].
  destruct xc; [|reflexivity]. destruct nc; [|reflexivity].
  destruct sc; [|reflexivity].
  destruct xh; [|reflexivity]. destruct nh; [|reflexivity].
  destruct sh; [|reflexivity].
  destruct xd; [|reflexivity]. destruct nd; [|reflexivity].
  destruct d; [|reflexivity].
  discriminate Ha.
Qed.

(** On a complete device with everything attached, the response is full
    when the state of the integral sensor can be shown, and a [ValueError]
    when it cannot. *)
Lemma websocket_info_attached self :
  plant_complete self = true -> fully_attached self = true ->
  exists d, dli self = Some d
    /\ if dli_state_shown f (Entity.state d)
       then exists response, websocket_info f self = Ok response
                             /\ full_response self response
       else websocket_info f self = Raise ValueError.
Proof.
  intros Hc Ha. unfold websocket_info. rewrite Hc. simpl.
  destruct self as [cfg id pic sp dsp pc dev
                      [xm nm xt nt xc nc xi ni xh nh xd nd]
                      [sm st sc si sh] d pp ti stt ast].
  unfold fully_attached, threshold_entities, meter_entities in Ha.
  simpl in Ha.
  repeat match type of Ha with
         | context [is_attached ?x] =>
             destruct x; simpl in Ha; [|discriminate Ha]
         end.
  eexists. split; [reflexivity|].
  unfold dli_state_shown, meter_info, dli_info, dot. run_R. simpl.
  destruct (truthy (Entity.state _) && py_ne_str (Entity.state _) _) eqn:Et.
  - destruct (py_float f (Entity.state _)) as [x|e] eqn:Ef.
    + eexists. split; [reflexivity|].
      split; [reflexivity|].
      intros m info Hin. simpl in Hin.
      repeat destruct Hin as [Hin|Hin]; try contradiction;
        injection Hin as <- <-; simpl;
        repeat split; try reflexivity; try discriminate;
        try apply truthy_or_unavailable; intros; congruence.
    + rewrite (py_float_raises_ValueError _ _ Et Ef). reflexivity.
  - eexists. split; [reflexivity|].
    split; [reflexivity|].
    intros m info Hin. simpl in Hin.
    repeat destruct Hin as [Hin|Hin]; try contradiction;
      injection Hin as <- <-; simpl;
      repeat split; try reflexivity; try discriminate;
      try apply truthy_or_unavailable; intros; congruence.
Qed.

Lemma ws_find_here key self rest :
  ws_find f ((key, Some self) :: rest) (entity_id self)
  = reply_of (websocket_info f self).
Proof.
  cbn [ws_find]. rewrite String.eqb_refl. unfold reply_of.
  destruct (websocket_info f self) as [|[]]; reflexivity.
Qed.

End Response.



(** On a complete plant with all its thresholds, its meters and its
    integral sensor attached, [websocket_info] returns the full response
    when the state of the integral sensor is empty, [None], the text
    [STATE_UNKNOWN] or a number. *)
Theorem websocket_info_returns (f : string -> option float)
  (self : PlantDevice) (d : Entity.t) :
  plant_complete self = true ->
  fully_attached self = true ->
  dli self = Some d ->
  dli_state_shown f (Entity.state d) = true ->
  exists response,
    websocket_info f self = Ok response /\ full_response self response.
Proof.
  intros Hc Ha Hd Hs.
  destruct (websocket_info_attached f self Hc Ha) as (d' & Hd' & H).
  assert (d' = d) by congruence. subst d'.
  rewrite Hs in H. exact H.
Qed.

(** The integral sensor of the sample plant has the state "unknown": the
    response is full all the same. *)
Lemma websocket_info_returns_witness :
  exists response,
    websocket_info float_of_digits (sample_plant_dli "unknown" "0")
    = Ok response
    /\ full_response (sample_plant_dli "unknown" "0") response.
Proof.
  exact (websocket_info_returns float_of_digits
           (sample_plant_dli "unknown" "0") (sample_dli "unknown" "0")
           eq_refl eq_refl eq_refl eq_refl).
Defined.

(** A complete plant that lacks one of its thresholds, one of its meters or
    its integral sensor has no response: [websocket_info] raises an
    [AttributeError], which the websocket handler does not catch, so the
    handler sends nothing. *)
Theorem websocket_info_needs_every_entity (f : string -> option float)
  (self : PlantDevice) :
  plant_complete self = true ->
  fully_attached self = false ->
  websocket_info f self = Raise AttributeError
  /\ forall key rest,
       ws_get_info f (Some ((key, Some self) :: rest)) (entity_id self)
       = uncaught AttributeError.
Proof.
  intros Hc Ha.
  pose proof (websocket_info_missing f self Hc Ha) as H.
  split; [exact H|]. intros key rest.
  unfold ws_get_info. rewrite ws_find_here, H. reflexivity.
Qed.

(** [add_dli(None)] on the sample plant: complete, and no integral
    sensor. *)
Lemma websocket_info_needs_every_entity_witness :
  websocket_info float_of_digits (add_dli None (sample_plant None))
  = Raise AttributeError.
Proof.
  exact (proj1 (websocket_info_needs_every_entity float_of_digits
                  (add_dli None (sample_plant None)) eq_refl eq_refl)).
Defined.

(** The state of the integral sensor is passed to [float] unless it is
    empty or [STATE_UNKNOWN]: with any other text that is no number, and so
    with [STATE_UNAVAILABLE], [websocket_info] raises a [ValueError] on a
    plant that is otherwise set up, and the websocket handler logs it and
    sends nothing. *)
Theorem websocket_info_dli_text (f : string -> option float)
  (self : PlantDevice) (d : Entity.t) (s : string) :
  plant_complete self = true ->
  fully_attached self = true ->
  dli self = Some d ->
  Entity.state d = PyStr s ->
  s <> "" -> s <> STATE_UNKNOWN ->
  f s = None ->
  websocket_info f self = Raise ValueError
  /\ forall key rest,
       ws_get_info f (Some ((key, Some self) :: rest)) (entity_id self)
       = logged_warning.
Proof.
  intros Hc Ha Hd Hs H1 H2 Hf.
  destruct (websocket_info_attached f self Hc Ha) as (d' & Hd' & H).
  assert (d' = d) by congruence. subst d'.
  assert (Hn : dli_state_shown f (Entity.state d) = false).
  { unfold dli_state_shown. rewrite Hs. simpl. rewrite Hf.
    destruct (String.eqb_spec s ""); [contradiction|].
    destruct (String.eqb_spec s STATE_UNKNOWN); [contradiction|].
    reflexivity. }
  rewrite Hn in H. split; [exact H|]. intros key rest.
  unfold ws_get_info. rewrite ws_find_here, H. reflexivity.
Qed.

(** The integral sensor of the sample plant is unavailable: no response. *)
Lemma websocket_info_dli_text_witness :
  websocket_info float_of_digits (sample_plant_dli "unavailable" "0")
  = Raise ValueError
  /\ ws_get_info float_of_digits
       (Some [("entry-1", Some (sample_plant_dli "unavailable" "0"))])
       "plant.fern"
     = logged_warning.
Proof.
  destruct (websocket_info_dli_text float_of_digits
              (sample_plant_dli "unavailable" "0")
              (sample_dli "unavailable" "0") "unavailable"
              eq_refl eq_refl eq_refl eq_refl) as [H1 H2];
    try discriminate; try reflexivity.
  split; [exact H1|]. exact (H2 "entry-1" []).
Defined.

(** The websocket handler answers for the first plant with the entity id
    of the message, skipping the entries that hold no plant, and reports
    that the entity is not found exactly when no plant has that id. *)
Theorem ws_get_info_finds_first (f : string -> option float)
  (entries : list (string * option PlantDevice)) (id : string) :
  (ws_get_info f (Some entries) id = send_error "entity_not_found" <->
   forall key plant, In (key, Some plant) entries -> entity_id plant <> id)
  /\ (forall before key plant after,
        entries = (before ++ (key, Some plant) :: after)%list ->
        entity_id plant = id ->
        (forall key' other, In (key', Some other) before ->
                            entity_id other <> id) ->
        ws_get_info f (Some entries) id = reply_of (websocket_info f plant)).
Proof.
  unfold ws_get_info. split.
  - induction entries as [|[key [p|]] rest IH]; cbn [ws_find].
    + split; [intros _ key plant []|reflexivity].
    + destruct (String.eqb_spec (entity_id p) id) as [E|E].
      * split.
        -- destruct (websocket_info f p) as [|[]]; discriminate.
        -- intros H. exfalso. apply (H key p); [left; reflexivity | exact E].
      * rewrite IH. split.
        -- intros H k q [Hin|Hin]; [congruence | apply (H k q Hin)].
        -- intros H k q Hin. apply (H k q). right. exact Hin.
    + rewrite IH. split.
      * intros H k q [Hin|Hin]; [discriminate | apply (H k q Hin)].
      * intros H k q Hin. apply (H k q). right. exact Hin.
  - intros before key plant after -> <- Hb.
    induction before as [|[k [q|]] before IH].
    + apply (ws_find_here f key plant after).
    + cbn [app ws_find].
      destruct (String.eqb_spec (entity_id q) (entity_id plant)) as [E|E].
      * exfalso. apply (Hb k q); [left; reflexivity | exact E].
      * apply IH. intros k' o Hin. apply (Hb k' o). right. exact Hin.
    + cbn [app ws_find].
      apply IH. intros k' o Hin. apply (Hb k' o). right. exact Hin.
Qed.

(** After an entry without a plant, the first plant with the id answers,
    here with an [AttributeError] that is not caught, and the plant with
    the same id after it is not asked; on its own, the incomplete sample
    plant is sent as the empty response. *)
Lemma ws_get_info_finds_first_witness :
  ws_get_info float_of_digits
    (Some [("entry-0", None); ("entry-2", Some dli_only_plant);
           ("entry-1", Some (add_species None (sample_plant None)))])
    "plant.fern"
  = uncaught AttributeError
  /\ ws_get_info float_of_digits
       (Some [("entry-0", None);
              ("entry-1", Some (sample_plant None))])
       "plant.fern"
     = send_result [].
Proof.
  split.
  - exact (proj2 (ws_get_info_finds_first float_of_digits _ "plant.fern")
             [("entry-0", None)] "entry-2" dli_only_plant
             [("entry-1", Some (add_species None (sample_plant None)))]
             eq_refl eq_refl
             (fun k o H => match H with
                           | or_introl E => ltac:(discriminate E)
                           | or_intror F => match F with end
                           end)).
  - vm_compute. reflexivity.
Defined.

(** ** The lists of entities *)

(** The lists of entities are exact: [threshold_entities] lists the
    minimum and the maximum of every metric and nothing else, twelve in
    all; [meter_entities] lists the meter of every metric but the integral,
    five in all; and everything the websocket response reads is attached
    exactly when every minimum, every maximum, every meter and the integral
    sensor are. *)
Theorem entity_lists_are_exact (self : PlantDevice) :
  (forall e, In e (threshold_entities self) <->
             exists m, e = min_of m self \/ e = max_of m self)
  /\ length (threshold_entities self) = 12%nat
  /\ (forall e, In e (meter_entities self) <->
                exists m, m <> ATTR_DLI /\ e = sensor_of m self)
  /\ length (meter_entities self) = 5%nat
  /\ (fully_attached self = true <->
      (forall m, is_attached (min_of m self) = true
                 /\ is_attached (max_of m self) = true
                 /\ (m <> ATTR_DLI -> is_attached (sensor_of m self) = true))
      /\ is_attached (dli self) = true).
Proof.
  assert (Ht : forall e, In e (threshold_entities self) <->
                         exists m, e = min_of m self \/ e = max_of m self).
  { intros e. unfold threshold_entities. simpl. split.
    - intros H.
      repeat destruct H as [H|H]; try contradiction; subst e;
        [ exists ATTR_CONDUCTIVITY | exists ATTR_DLI | exists ATTR_HUMIDITY
        | exists ATTR_ILLUMINANCE | exists ATTR_MOISTURE
        | exists ATTR_TEMPERATURE
        | exists ATTR_CONDUCTIVITY | exists ATTR_DLI | exists ATTR_HUMIDITY
        | exists ATTR_ILLUMINANCE | exists ATTR_MOISTURE
        | exists ATTR_TEMPERATURE ]; simpl; auto.
    - intros (m & [-> | ->]); destruct m; simpl; tauto. }
  assert (Hm : forall e, In e (meter_entities self) <->
                         exists m, m <> ATTR_DLI /\ e = sensor_of m self).
  { intros e. unfold meter_entities. simpl. split.
    - intros H.
      repeat destruct H as [H|H]; try contradiction; subst e;
        [ exists ATTR_CONDUCTIVITY | exists ATTR_HUMIDITY
        | exists ATTR_ILLUMINANCE | exists ATTR_MOISTURE
        | exists ATTR_TEMPERATURE ]; simpl; split; auto; discriminate.
    - intros (m & Hne & ->); destruct m; simpl; tauto. }
  split; [exact Ht|]. split; [reflexivity|].
  split; [exact Hm|]. split; [reflexivity|].
  unfold fully_attached. rewrite forallb_forall. split.
  - intros H. split.
    + intros m. repeat split.
      * apply H, in_or_app. left. apply Ht. exists m. auto.
      * apply H, in_or_app. left. apply Ht. exists m. auto.
      * intros Hne. apply H, in_or_app. right. apply in_or_app. left.
        apply Hm. exists m. auto.
    + apply H, in_or_app. right. apply in_or_app. right. left. reflexivity.
  - intros [Hall Hd] e Hin.
    apply in_app_or in Hin as [Hin|Hin].
    + apply Ht in Hin as (m & [-> | ->]); apply (Hall m).
    + apply in_app_or in Hin as [Hin|[<-|[]]]; [|exact Hd].
      apply Hm in Hin as (m & Hne & ->). apply (Hall m), Hne.
Qed.

(** ** The service that replaces the sensor of a meter *)

Lemma is_entity_true meter e :
  is_entity meter e = true <-> meter = Some (Entity.entity_id e).
Proof.
  unfold is_entity. destruct meter as [id|]; [|split; discriminate].
  destruct (String.eqb_spec (Entity.entity_id e) id) as [E|Hne]; split.
  - intros _. congruence.
  - reflexivity.
  - discriminate.
  - intros H. congruence.
Qed.

Lemma matching_meters_In entries meter e :
  In e (matching_meters entries meter) <->
  (exists key l, In (key, Some l) entries /\ In e l)
  /\ meter = Some (Entity.entity_id e).
Proof.
  induction entries as [|[key [l|]] rest IH]; cbn [matching_meters].
  - split; [intros [] | intros [(k & l & [] & _) _]].
  - rewrite in_app_iff, filter_In, IH, is_entity_true. split.
    + intros [[Hl Hm] | [(k & l' & Hin & He) Hm]].
      * split; [|exact Hm]. exists key, l. split; [left; reflexivity | exact Hl].
      * split; [|exact Hm]. exists k, l'. split; [right; exact Hin | exact He].
    + intros [(k & l' & [Hin|Hin] & He) Hm].
      * injection Hin as <- <-. left. split; assumption.
      * right. split; [|exact Hm]. exists k, l'. split; assumption.
  - rewrite IH. split.
    + intros [(k & l' & Hin & He) Hm]. split; [|exact Hm].
      exists k, l'. split; [right; exact Hin | exact He].
    + intros [(k & l' & [Hin|Hin] & He) Hm]; [discriminate|].
      split; [|exact Hm]. exists k, l'. split; assumption.
Qed.

Lemma found_meter_matching entries meter :
  found_meter entries meter = true <-> matching_meters entries meter <> [].
Proof.
  induction entries as [|[key [l|]] rest IH]; cbn [found_meter matching_meters].
  - split; [discriminate | congruence].
  - rewrite orb_true_iff, IH. split.
    + intros [H|H] E; apply app_eq_nil in E as [E1 E2].
      * apply existsb_exists in H as (e & Hin & He).
        assert (Hf : In e (List.filter (is_entity meter) l))
          by (apply filter_In; split; assumption).
        rewrite E1 in Hf. exact Hf.
      * contradiction.
    + intros H. destruct (List.filter (is_entity meter) l) as [|e t] eqn:E.
      * right. exact H.
      * left. apply existsb_exists. exists e.
        assert (Hf : In e (List.filter (is_entity meter) l))
          by (rewrite E; left; reflexivity).
        apply filter_In in Hf. exact Hf.
  - exact IH.
Qed.

Lemma has_state_true hass meter :
  has_state hass meter = true <->
  exists id, meter = Some id /\ is_Some (states hass !! id).
Proof.
  unfold has_state. destruct meter as [id|].
  - destruct (states hass !! id) as [s|] eqn:E; split.
    + intros _. exists id. split; [reflexivity|]. rewrite E. eauto.
    + reflexivity.
    + discriminate.
    + intros (i & [= <-] & [x Hx]). congruence.
  - split; [discriminate | intros (i & H & _); discriminate].
Qed.

Lemma found_meter_registered entries meter :
  found_meter entries meter = true <->
  exists id, meter = Some id
    /\ exists key l e, In (key, Some l) entries /\ In e l
                       /\ Entity.entity_id e = id.
Proof.
  rewrite found_meter_matching. split.
  - intros H. destruct (matching_meters entries meter) as [|e t] eqn:E;
      [contradiction|].
    assert (Hin : In e (matching_meters entries meter))
      by (rewrite E; left; reflexivity).
    apply matching_meters_In in Hin as [(key & l & Hk & Hl) Hm].
    exists (Entity.entity_id e). split; [exact Hm|].
    exists key, l, e. auto.
  - intros (id & -> & key & l & e & Hk & Hl & <-) E.
    assert (Hin : In e (matching_meters entries (Some (Entity.entity_id e))))
      by (apply matching_meters_In; split; [exists key, l; auto | reflexivity]).
    rewrite E in Hin. exact Hin.
Qed.

Lemma replace_sensor_inv hass entries meter new n ms :
  replace_sensor hass (Some entries) meter new
  = Ok (replace_external_sensor n ms) ->
  found_meter entries meter = true /\ ms = matching_meters entries meter.
Proof.
  unfold replace_sensor.
  destruct (found_meter entries meter); [|discriminate]. cbn [negb].
  destruct (names_sensor new) as [s|];
    repeat match goal with
           | |- context [if negb ?c then _ else _] =>
               destruct c; cbn [negb]; [|discriminate]
           end;
    intros [= <- <-]; split; reflexivity.
Qed.

(** [replace_sensor] goes through, and calls [replace_external_sensor],
    exactly when the meter of the call is a meter registered by some plant
    and has a state in the state machine, and the new sensor, when the call
    names one, has an id that starts with "sensor." and has a state too.
    A new sensor that is missing or the empty text detaches: the meters are
    called with [None], and nothing is checked about it. *)
Theorem replace_sensor_accepts (hass : HomeAssistant)
  (entries : list (string * option (list Entity.t)))
  (meter new n : option string) (ms : list Entity.t) :
  replace_sensor hass (Some entries) meter new
  = Ok (replace_external_sensor n ms) <->
  (exists id, meter = Some id
     /\ (exists key l e, In (key, Some l) entries /\ In e l
                         /\ Entity.entity_id e = id)
     /\ is_Some (states hass !! id))
  /\ n = names_sensor new
  /\ (forall s, n = Some s ->
                String.prefix "sensor." s = true
                /\ is_Some (states hass !! s))
  /\ ms = matching_meters entries meter.
Proof.
  unfold replace_sensor. split.
  - destruct (found_meter entries meter) eqn:Hf; [|discriminate]. cbn [negb].
    apply found_meter_registered in Hf as (id & -> & Hreg).
    destruct (names_sensor new) as [s|].
    + destruct (String.prefix "sensor." s) eqn:Hp; [|discriminate]. cbn [negb].
      destruct (has_state hass (Some id)) eqn:Hm; [|discriminate]. cbn [negb].
      destruct (has_state hass (Some s)) eqn:Hs; [|discriminate]. cbn [negb].
      intros [= <- <-].
      apply has_state_true in Hm as (i & [= <-] & Hm).
      apply has_state_true in Hs as (i & [= <-] & Hs).
      split; [exists id; auto|]. split; [reflexivity|].
      split; [|reflexivity]. intros s' [= <-]. auto.
    + destruct (has_state hass (Some id)) eqn:Hm; [|discriminate]. cbn [negb].
      intros [= <- <-].
      apply has_state_true in Hm as (i & [= <-] & Hm).
      split; [exists id; auto|]. split; [reflexivity|].
      split; [|reflexivity]. intros s' [=].
  - intros ((id & -> & Hreg & Hst) & -> & Hn & ->).
    assert (Hf : found_meter entries (Some id) = true)
      by (apply found_meter_registered; exists id; auto).
    assert (Hm : has_state hass (Some id) = true)
      by (apply has_state_true; exists id; auto).
    rewrite Hf. cbn [negb].
    destruct (names_sensor new) as [s|].
    + destruct (Hn s eq_refl) as [Hp Hs].
      assert (Hs' : has_state hass (Some s) = true)
        by (apply has_state_true; exists s; auto).
      rewrite Hp, Hm, Hs'. reflexivity.
    + rewrite Hm. reflexivity.
Qed.

(** The moisture meter of the sample plant gets the sensor of the
    balcony. *)
Lemma replace_sensor_accepts_witness :
  replace_sensor hass_two_sensors (Some sample_meters)
    (Some "sensor.fern_moisture") (Some "sensor.balcony_moisture")
  = Ok (replace_external_sensor (Some "sensor.balcony_moisture")
          [sample_meter "sensor.fern_moisture"]).
Proof.
  apply (proj2 (replace_sensor_accepts hass_two_sensors sample_meters
                  (Some "sensor.fern_moisture")
                  (Some "sensor.balcony_moisture")
                  (Some "sensor.balcony_moisture")
                  [sample_meter "sensor.fern_moisture"])).
  split; [|split; [reflexivity|split; [|reflexivity]]].
  - exists "sensor.fern_moisture". split; [reflexivity|]. split.
    + exists "entry-1", [ sample_meter "sensor.fern_moisture";
                          sample_meter "sensor.fern_temperature" ],
        (sample_meter "sensor.fern_moisture").
      simpl. auto.
    + exists "unknown". reflexivity.
  - intros s [= <-]. split; [reflexivity|]. exists "41". reflexivity.
Defined.

(** When [replace_sensor] goes through, the meters it calls are the
    registered meters with the entity id of the call, and no other; there
    is at least one. *)
Theorem replace_sensor_targets (hass : HomeAssistant)
  (entries : list (string * option (list Entity.t)))
  (meter new n : option string) (ms : list Entity.t) :
  replace_sensor hass (Some entries) meter new
  = Ok (replace_external_sensor n ms) ->
  ms <> []
  /\ forall e, In e ms <->
                (exists key l, In (key, Some l) entries /\ In e l)
                /\ meter = Some (Entity.entity_id e).
Proof.
  intros H. apply replace_sensor_inv in H as [Hf ->].
  split; [apply found_meter_matching, Hf|].
  intros e. apply matching_meters_In.
Qed.

(** Detaching the moisture meter of the sample plant calls that meter and
    not the temperature meter. *)
Lemma replace_sensor_targets_witness :
  forallb (fun e => String.eqb (Entity.entity_id e) "sensor.fern_moisture")
    (matching_meters sample_meters (Some "sensor.fern_moisture")) = true
  /\ matching_meters sample_meters (Some "sensor.fern_moisture") <> [].
Proof.
  split; [reflexivity|].
  exact (proj1 (replace_sensor_targets hass_two_sensors sample_meters
                  (Some "sensor.fern_moisture") (Some "") None
                  (matching_meters sample_meters (Some "sensor.fern_moisture"))
                  eq_refl)).
Defined.

(** ** Unloading a configuration entry *)

Lemma kept_lookup (data : gmap string (gmap string item)) entry k e :
  filter (fun kv : string * gmap string item => kv.2 <> ∅) (delete entry data)
    !! k = Some e
  <-> data !! k = Some e /\ k <> entry /\ e <> ∅.
Proof.
  rewrite map_lookup_filter_Some, lookup_delete_Some. simpl.
  split; [intros [[? ?] ?] | intros (? & ? & ?)]; repeat split; auto.
Qed.

(** [async_unload_entry] returns true exactly when the entry holds a
    component and both the component and the platforms unload.  When it
    returns false the data of the domain is as it was.  When it returns
    true, what is left is every other entry that is not empty, as it was:
    the entry is gone and so is every entry left empty; and the data of the
    domain is deleted, and the service removed, exactly when nothing is
    left. *)
Theorem unload_removes_the_entry (key : string) (comp plat : bool)
  (data : gmap string (gmap string item)) (entry : string) (o : unload_outcome) :
  async_unload_entry key comp plat (Some data) entry = Ok o ->
  (unload_ok o = true <->
   comp = true /\ plat = true
   /\ exists ed, data !! entry = Some ed /\ ed !! key = Some ItemObject)
  /\ (unload_ok o = false ->
      domain_after o = Some data /\ service_removed o = false)
  /\ (unload_ok o = true ->
      (forall k e,
          (exists d, domain_after o = Some d /\ d !! k = Some e) <->
          data !! k = Some e /\ k <> entry /\ e <> ∅)
      /\ (domain_after o = None <->
          forall k e, data !! k = Some e -> k = entry \/ e = ∅)
      /\ (service_removed o = true <-> domain_after o = None)).
Proof.
  unfold async_unload_entry.
  destruct (data !! entry) as [ed|] eqn:Ee; [|discriminate].
  destruct (ed !! key) as [c|] eqn:Ec; [|discriminate].
  destruct c, comp, plat; simpl;
    try (intros [= <-]; simpl; split;
         [ split; [discriminate | intros (? & ? & ? & ? & ?); congruence]
         | split; [auto | discriminate] ]).
  set (kept := filter _ (delete entry data)).
  destruct (decide (kept = ∅)) as [Hk|Hk]; intros [= <-]; simpl.
  - split; [split; [intros _; eauto 6 | reflexivity]|].
    split; [discriminate|]. intros _. split; [|split].
    + intros k e. split.
      * intros (d & Hd & _). discriminate.
      * intros H. apply kept_lookup in H. fold kept in H.
        rewrite Hk, lookup_empty in H. discriminate.
    + split; [|reflexivity]. intros _ k e He.
      destruct (decide (k = entry)) as [|Hne]; [auto|].
      destruct (decide (e = ∅)) as [|Hn]; [auto|].
      exfalso.
      assert (H : kept !! k = Some e) by (apply kept_lookup; auto).
      rewrite Hk, lookup_empty in H. discriminate.
    + tauto.
  - split; [split; [intros _; eauto 6 | reflexivity]|].
    split; [discriminate|]. intros _. split; [|split].
    + intros k e. split.
      * intros (d & [= <-] & Hd). apply kept_lookup, Hd.
      * intros H. exists kept. split; [reflexivity|]. apply kept_lookup, H.
    + split; [discriminate|]. intros H. exfalso. apply Hk.
      apply map_empty. intros k.
      destruct (kept !! k) as [e|] eqn:E; [|reflexivity].
      apply kept_lookup in E as (He & Hne & Hn).
      destruct (H k e He); contradiction.
    + split; discriminate.
Qed.

(** Unloading the first of the three sample entries leaves the third and
    keeps the service. *)
Lemma unload_removes_the_entry_witness :
  exists o,
    async_unload_entry "component" true true (Some sample_domain) "entry-1"
    = Ok o
    /\ unload_ok o = true
    /\ service_removed o = false
    /\ forall k e,
         (exists d, domain_after o = Some d /\ d !! k = Some e) <->
         sample_domain !! k = Some e /\ k <> "entry-1" /\ e <> ∅.
Proof.
  eexists. split; [vm_compute; reflexivity|].
  split; [reflexivity|]. split; [reflexivity|].
  match goal with
  | |- forall k e, (exists d, domain_after ?o = _ /\ _) <-> _ =>
      exact (proj1 (proj2 (proj2
               (unload_removes_the_entry "component" true true sample_domain
                  "entry-1" o ltac:(vm_compute; reflexivity))) eq_refl))
  end.
Defined.

(** [async_unload_entry] raises, a [KeyError], exactly when the domain has
    no data, the entry is not in the data of the domain, or the entry holds
    no component. *)
Theorem unload_raises_on_missing_key (key : string) (comp plat : bool)
  (domain_data : option (gmap string (gmap string item))) (entry : string)
  (e : exn) :
  async_unload_entry key comp plat domain_data entry = Raise e <->
  e = KeyError
  /\ (domain_data = None
      \/ exists data, domain_data = Some data
           /\ (data !! entry = None
               \/ exists ed, data !! entry = Some ed /\ ed !! key = None)).
Proof.
  unfold async_unload_entry. destruct domain_data as [data|].
  - destruct (data !! entry) as [ed|] eqn:Ee.
    + destruct (ed !! key) as [c|] eqn:Ec.
      * split.
        -- destruct c, comp, plat; simpl;
             repeat match goal with
                    | |- context [decide ?P] => destruct (decide P)
                    end; discriminate.
        -- intros [_ [| (d & [= <-] & [|(ed' & ? & ?)])]]; congruence.
      * split.
        -- intros [= <-]. split; [reflexivity|]. right. exists data.
           split; [reflexivity|]. right. exists ed. auto.
        -- intros [-> _]. reflexivity.
    + split.
      * intros [= <-]. split; [reflexivity|]. right. exists data. auto.
      * intros [-> _]. reflexivity.
  - split.
    + intros [= <-]. auto.
    + intros [-> _]. reflexivity.
Qed.

(** ** Calls that do not matter to the evaluation *)

Lemma update_same_evaluation (f : string -> option float)
  (hass : HomeAssistant) (a b : PlantDevice) :
  same_entities a b ->
  (forall m, trigger m a = trigger m b) ->
  statuses a = statuses b ->
  _attr_state a = _attr_state b ->
  fst (update f hass a) = fst (update f hass b)
  /\ statuses (snd (update f hass a)) = statuses (snd (update f hass b))
  /\ _attr_state (snd (update f hass a)) = _attr_state (snd (update f hass b)).
Proof.
  intros He Ht Hs Ha.
  destruct (update_same_entities f hass a b He) as [Ho Hst].
  apply same_outcome_unit in Ho.
  split; [exact Ho|]. split; [exact (Hst Hs)|].
  destruct (update f hass a) as [ra a'] eqn:Ea.
  destruct (update f hass b) as [rb b'] eqn:Eb.
  simpl in *. subst rb. destruct ra as [[]|e].
  - rewrite (update_Ok_state f hass a a' Ea), (update_Ok_state f hass b b' Eb).
    rewrite (existsb_pointwise (contributes hass a) (contributes hass b)
               all_metrics (fun m => contributes_same_entities hass a b m He)).
    rewrite (existsb_pointwise
               (fun m => trigger m a && is_breach (classified f hass a m))
               (fun m => trigger m b && is_breach (classified f hass b m))
               all_metrics).
    + reflexivity.
    + intros m. rewrite (Ht m), (classified_same_entities f hass a b m He).
      reflexivity.
  - rewrite (attr_state_update_Raise f hass a e a' Ea),
      (attr_state_update_Raise f hass b e b' Eb). exact Ha.
Qed.

(** Setting the picture, setting the species, adding the intermediate
    calculations and registering the device change nothing of the
    evaluation: [update] after such a call has the outcome, and leaves the
    statuses and the state, that [update] has without it. *)
Theorem neutral_calls_keep_the_evaluation (f : string -> option float)
  (hass : HomeAssistant) (c : call) (self : PlantDevice) :
  evaluation_neutral c = true ->
  fst (update f hass (run_call f c self)) = fst (update f hass self)
  /\ statuses (snd (update f hass (run_call f c self)))
     = statuses (snd (update f hass self))
  /\ _attr_state (snd (update f hass (run_call f c self)))
     = _attr_state (snd (update f hass self)).
Proof.
  intros Hc. apply update_same_evaluation;
    destruct c as [| | | | | |h|h]; try discriminate Hc; simpl;
    try (repeat split; fail);
    try (intros m; reflexivity);
    unfold update_registry; run_M; destruct (_device_id self);
    try (repeat split; fail); intros m; reflexivity.
Qed.

(** Setting a picture on the sample plant before the pass in which
    moisture reads 15 leaves the state of that pass a problem. *)
Lemma neutral_calls_keep_the_evaluation_witness :
  _attr_state (snd (update float_of_digits hass_moisture_15
                      (run_call float_of_digits
                         (Call_add_image (Some "/local/fern.jpg"))
                         (sample_plant None))))
  = STATE_PROBLEM.
Proof.
  exact (eq_trans
           (proj2 (proj2 (neutral_calls_keep_the_evaluation float_of_digits
                            hass_moisture_15
                            (Call_add_image (Some "/local/fern.jpg"))
                            (sample_plant None) eq_refl)))
           ltac:(vm_compute; reflexivity)).
Defined.

(** The picture set by [add_image] is written to the options of the
    configuration entry, so a device made anew from that entry has it, and
    the triggers are as they were; the species set by [add_species] is not
    written anywhere: a device made anew has the species of the entry. *)
Theorem picture_survives_restart (image_url new_species : option string)
  (self : PlantDevice) (generated_entity_id : string) :
  _attr_entity_picture
    (__init__ (_config (add_image image_url self)) generated_entity_id)
  = image_url
  /\ (forall m, trigger m (__init__ (_config (add_image image_url self))
                             generated_entity_id)
                = trigger m self)
  /\ species (__init__ (_config (add_species new_species self))
                generated_entity_id)
     = species (__init__ (_config self) generated_entity_id).
Proof.
  split; [reflexivity|]. split; [|reflexivity].
  intros m. destruct m; reflexivity.
Qed.
